(** * nerfnet: the process bootstrap (nerfnet/net/nerfnet_main.cc) and the
      fragmentation round trip of the radio tunnel protocol.

    The first part embeds [main] and its three helpers [OpenTunnel],
    [SetInterfaceFlags] and [SetIPAddress] as programs of a small
    trace-and-termination monad. Every call that leaves the file (system
    calls, logging, the radio engine) is recorded as an event; what the
    operating system and the engine answer is read from an oracle record, so
    a theorem quantified over the oracle holds for every environment.

    The second part models what the design document describes and the
    file does not hold: the fragmentation engine, and the check of the link
    configuration in the engine constructors. *)

From stdpp Require Import gmap strings list fin_maps.
From Stdlib Require Import ZArith NArith Lia.

Local Open Scope Z_scope.

(** ** Constants of the system headers used by the file *)

(** <linux/if.h>: size of [ifr_name]. *)
Definition IFNAMSIZ : nat := 16.
(** <linux/if.h>: interface flag "up". *)
Definition IFF_UP : Z := 0x1.
(** <linux/if_tun.h> *)
Definition IFF_TUN : Z := 0x0001.
Definition IFF_NO_PI : Z := 0x1000.
(** <fcntl.h> *)
Definition O_RDWR : Z := 2.

(** ** Events and the process monad *)

(** The request of an [ioctl] together with the fields of the [ifreq] that
    the request reads. *)
Inductive IoctlReq : Type :=
| TUNSETIFF (ifr_name : string) (ifr_flags : Z)
| SIOCSIFFLAGS (ifr_name : string) (ifr_flags : Z)
| SIOCSIFADDR (ifr_name : string) (ifr_addr : string)
| SIOCSIFNETMASK (ifr_name : string) (ifr_netmask : string).

Inductive LogArg : Type :=
| ArgS (s : string)
| ArgN (n : N).

Inductive Event : Type :=
| EvParseFailure
| EvOpen (path : string) (oflag : Z) (ret : Z)
| EvSocket (ret : Z)
| EvIoctl (fd : Z) (req : IoctlReq) (ret : Z)
| EvInetPton (src : string) (ret : Z)
| EvClose (fd : Z)
| EvLogI (fmt : string) (args : list LogArg)
| EvLogFatal (fmt : string)
| EvPrimaryCtor (ce_pin : N) (tunnel_fd : Z)
    (primary_addr secondary_addr channel poll_interval_us : N)
| EvSecondaryCtor (ce_pin : N) (tunnel_fd : Z)
    (primary_addr secondary_addr channel : N)
| EvSetTunnelLogsEnabled (enabled : bool)
| EvRun.

(** How a process stops before [main] returns. *)
Inductive Termination : Type :=
| ParseExit     (* the command-line parser reported a failure and exited *)
| CheckQuit     (* a CHECK of this file failed *)
| EngineQuit.   (* the engine constructor ended the process *)

Inductive Res (A : Type) : Type :=
| Ok (a : A)
| Stop (t : Termination)
| Forever.      (* the engine loop never returned *)
Arguments Ok {A} a.
Arguments Stop {A} t.
Arguments Forever {A}.

Definition Proc (A : Type) : Type := (list Event * Res A)%type.

Definition ret {A} (a : A) : Proc A := ([], Ok a).

Definition bind {A B} (m : Proc A) (k : A -> Proc B) : Proc B :=
  match m with
  | (t1, Ok a) => let '(t2, r) := k a in (t1 ++ t2, r)
  | (t1, Stop t) => (t1, Stop t)
  | (t1, Forever) => (t1, Forever)
  end.

Definition emit (e : Event) : Proc unit := ([e], Ok tt).
Definition stop {A} (t : Termination) : Proc A := ([], Stop t).
Definition forever {A} : Proc A := ([], Forever).

Notation "'let!' x ':=' m 'in' k" := (bind m (fun x => k))
  (at level 10, x name, m at level 100, k at level 200,
   format "'[v' 'let!'  x  ':='  m  'in' '/' k ']'").

Definition trace {A} (p : Proc A) : list Event := fst p.
Definition result {A} (p : Proc A) : Res A := snd p.

(** Modelled from the spec: the CHECK macro of nerfnet/util/log.h, which is
    not part of the file. The comments at its uses say "Quits and logs the
    error on failure" and the design document says a fatal error "reports
    the cause and terminates": a false condition logs the message and ends
    the process, a true one does nothing. *)
Definition CHECK (cond : bool) (fmt : string) : Proc unit :=
  if cond then ret tt
  else let! _ := emit (EvLogFatal fmt) in stop CheckQuit.

(** The LOGI macro of the same header: one informational log line. *)
Definition LOGI (fmt : string) (args : list LogArg) : Proc unit :=
  emit (EvLogI fmt args).

(** ** The environment *)

(** What the operating system and the radio engine answer. [main] is
    straight-line code, so each call site runs at most once and one answer
    per call site (a function of the call's arguments) describes every
    environment. *)
Record OS : Type := {
  os_open : string -> Z -> Z;
  os_socket_flags : Z;                 (* socket() in SetInterfaceFlags *)
  os_socket_addr : Z;                  (* socket() in SetIPAddress *)
  os_ioctl : Z -> IoctlReq -> Z;
  os_inet_pton : string -> Z;
  os_primary_ctor : N -> Z -> N -> N -> N -> N -> bool;
  os_secondary_ctor : N -> Z -> N -> N -> N -> bool;
  os_run_returns : bool
}.

Section Bootstrap.

Variable os : OS.

Definition sys_open (path : string) (oflag : Z) : Proc Z :=
  let r := os_open os path oflag in
  let! _ := emit (EvOpen path oflag r) in ret r.

Definition sys_socket (r : Z) : Proc Z :=
  let! _ := emit (EvSocket r) in ret r.

Definition sys_ioctl (fd : Z) (req : IoctlReq) : Proc Z :=
  let r := os_ioctl os fd req in
  let! _ := emit (EvIoctl fd req r) in ret r.

Definition sys_inet_pton (src : string) : Proc Z :=
  let r := os_inet_pton os src in
  let! _ := emit (EvInetPton src r) in ret r.

Definition sys_close (fd : Z) : Proc unit := emit (EvClose fd).

(** [strncpy(ifr.ifr_name, name, IFNAMSIZ)]: at most [IFNAMSIZ] characters
    of the name reach the request. *)
Definition strncpy_ifr_name (device_name : string) : string :=
  String.substring 0 IFNAMSIZ device_name.

(** [ifr.ifr_flags = flags] (line 46): [ifr_flags] is a [short], so the
    [int] argument is narrowed to its low 16 bits, read as a signed value. *)
Definition to_short (z : Z) : Z := (z + 32768) mod 65536 - 32768.

(** Lines 41-52. *)
Definition SetInterfaceFlags (device_name : string) (flags : Z) : Proc unit :=
  let! fd := sys_socket (os_socket_flags os) in
  let! _ := CHECK (0 <=? fd) "Failed to open socket: %s (%d)" in
  let! status :=
    sys_ioctl fd (SIOCSIFFLAGS (strncpy_ifr_name device_name) (to_short flags)) in
  let! _ := CHECK (0 <=? status) "Failed to set tunnel interface: %s (%d)" in
  sys_close fd.

(** Lines 54-78. *)
Definition SetIPAddress (device_name ip ip_mask : string) : Proc unit :=
  let! fd := sys_socket (os_socket_addr os) in
  let! _ := CHECK (0 <=? fd) "Failed to open socket: %s (%d)" in
  let! r := sys_inet_pton ip in
  let! _ := CHECK (r =? 1) "Failed to assign IP address: %s (%d)" in
  let! status := sys_ioctl fd (SIOCSIFADDR (strncpy_ifr_name device_name) ip) in
  let! _ := CHECK (0 <=? status) "Failed to set tunnel interface ip: %s (%d)" in
  let! r := sys_inet_pton ip_mask in
  let! _ := CHECK (r =? 1) "Failed to assign IP mask: %s (%d)" in
  let! status := sys_ioctl fd (SIOCSIFNETMASK (strncpy_ifr_name device_name) ip_mask) in
  let! _ := CHECK (0 <=? status) "Failed to set tunnel interface mask: %s (%d)" in
  sys_close fd.

(** Lines 82-94. *)
Definition OpenTunnel (device_name : string) : Proc Z :=
  let! fd := sys_open "/dev/net/tun" O_RDWR in
  let! _ := CHECK (0 <=? fd) "Failed to open tunnel file: %s (%d)" in
  let! status :=
    sys_ioctl fd (TUNSETIFF (strncpy_ifr_name device_name) (Z.lor IFF_TUN IFF_NO_PI)) in
  let! _ := CHECK (0 <=? status) "Failed to set tunnel interface: %s (%d)" in
  ret fd.

(** *** The command line *)

(** What the user typed: [None] for an option that was left out, the two
    role switches and the log switch as booleans. *)
Record CmdLine : Type := {
  cl_interface_name : option string;
  cl_ce_pin : option N;
  cl_primary : bool;
  cl_secondary : bool;
  cl_tunnel_ip : option string;
  cl_tunnel_mask : option string;
  cl_primary_addr : option N;
  cl_secondary_addr : option N;
  cl_channel : option N;
  cl_poll_interval_us : option N;
  cl_enable_tunnel_logs : bool
}.

(** The argument objects after [cmd.parse]: [getValue()] of each, and
    [isSet()] of the tunnel IP. *)
Record Args : Type := {
  interface_name_arg : string;
  ce_pin_arg : N;
  primary_arg : bool;
  secondary_arg : bool;
  tunnel_ip_arg : string;
  tunnel_ip_arg_isSet : bool;
  tunnel_ip_mask : string;
  primary_addr_arg : N;
  secondary_addr_arg : N;
  channel_arg : N;
  poll_interval_us_arg : N;
  enable_tunnel_logs_arg : bool
}.

Definition uint16_max : N := 0xFFFF.
Definition uint32_max : N := 0xFFFFFFFF.

(** A [ValueArg<T>] for an unsigned [T]: the default when left out; a value
    that does not fit [T] fails the parse. *)
Definition value_arg (max : N) (default : N) (given : option N) : option N :=
  match given with
  | None => Some default
  | Some v => if (v <=? max)%N then Some v else None
  end.

(** Lines 98-128: the declarations of the arguments with their defaults,
    [cmd.xorAdd(primary_arg, secondary_arg)] (exactly one of the two
    switches has to be given) and [cmd.parse]. [None] is a parse failure. *)
Definition parse (c : CmdLine) : option Args :=
  if negb (xorb (cl_primary c) (cl_secondary c)) then None else
  match value_arg uint16_max 22 (cl_ce_pin c),
        value_arg uint32_max 0x90019001 (cl_primary_addr c),
        value_arg uint32_max 0x90009000 (cl_secondary_addr c),
        value_arg uint32_max 1 (cl_channel c),
        value_arg uint32_max 100 (cl_poll_interval_us c) with
  | Some ce, Some pa, Some sa, Some ch, Some poll =>
      Some {| interface_name_arg := default "nerf0" (cl_interface_name c);
              ce_pin_arg := ce;
              primary_arg := cl_primary c;
              secondary_arg := cl_secondary c;
              tunnel_ip_arg := default EmptyString (cl_tunnel_ip c);
              tunnel_ip_arg_isSet := bool_decide (is_Some (cl_tunnel_ip c));
              tunnel_ip_mask := default "255.255.255.0" (cl_tunnel_mask c);
              primary_addr_arg := pa;
              secondary_addr_arg := sa;
              channel_arg := ch;
              poll_interval_us_arg := poll;
              enable_tunnel_logs_arg := cl_enable_tunnel_logs c |}
  | _, _, _, _, _ => None
  end.

(** Lines 130-137: the tunnel IP handed to [SetIPAddress]. *)
Definition select_tunnel_ip (a : Args) : string :=
  if negb (tunnel_ip_arg_isSet a) then
    if primary_arg a then "192.168.10.1"
    else if secondary_arg a then "192.168.10.2"
    else tunnel_ip_arg a
  else tunnel_ip_arg a.

(** The engines (nerfnet/net/primary_radio_interface.h and
    secondary_radio_interface.h are not part of the file): the constructor
    call is recorded with its arguments; whether it returns is the
    environment's answer. *)
Definition PrimaryRadioInterface
    (ce_pin : N) (tunnel_fd : Z) (pa sa ch poll : N) : Proc unit :=
  let! _ := emit (EvPrimaryCtor ce_pin tunnel_fd pa sa ch poll) in
  if os_primary_ctor os ce_pin tunnel_fd pa sa ch poll then ret tt
  else stop EngineQuit.

Definition SecondaryRadioInterface
    (ce_pin : N) (tunnel_fd : Z) (pa sa ch : N) : Proc unit :=
  let! _ := emit (EvSecondaryCtor ce_pin tunnel_fd pa sa ch) in
  if os_secondary_ctor os ce_pin tunnel_fd pa sa ch then ret tt
  else stop EngineQuit.

Definition SetTunnelLogsEnabled (enabled : bool) : Proc unit :=
  emit (EvSetTunnelLogsEnabled enabled).

Definition Run : Proc unit :=
  let! _ := emit EvRun in
  if os_run_returns os then ret tt else forever.

(** Lines 130-172: [main] after the parse. *)
Definition main_body (a : Args) : Proc Z :=
  let tunnel_ip := select_tunnel_ip a in
  let! tunnel_fd := OpenTunnel (interface_name_arg a) in
  let! _ := LOGI "tunnel '%s' opened" [ArgS (interface_name_arg a)] in
  let! _ := SetInterfaceFlags (interface_name_arg a) IFF_UP in
  let! _ := LOGI "tunnel '%s' up" [ArgS (interface_name_arg a)] in
  let! _ := SetIPAddress (interface_name_arg a) tunnel_ip (tunnel_ip_mask a) in
  let! _ := LOGI "tunnel '%s' configured with '%s' mask '%s'"
              [ArgS (interface_name_arg a); ArgS tunnel_ip; ArgS (tunnel_ip_mask a)] in
  let! _ := LOGI "using channel '%i'" [ArgN (channel_arg a)] in
  let! _ :=
    if primary_arg a then
      let! _ := PrimaryRadioInterface (ce_pin_arg a) tunnel_fd
                  (primary_addr_arg a) (secondary_addr_arg a)
                  (channel_arg a) (poll_interval_us_arg a) in
      let! _ := SetTunnelLogsEnabled (enable_tunnel_logs_arg a) in
      Run
    else if secondary_arg a then
      let! _ := SecondaryRadioInterface (ce_pin_arg a) tunnel_fd
                  (primary_addr_arg a) (secondary_addr_arg a)
                  (channel_arg a) in
      let! _ := SetTunnelLogsEnabled (enable_tunnel_logs_arg a) in
      Run
    else CHECK false "Primary or secondary mode must be enabled" in
  ret 0.

(** Lines 96-173. *)
Definition nerfnet_main (c : CmdLine) : Proc Z :=
  match parse c with
  | None => let! _ := emit EvParseFailure in stop ParseExit
  | Some a => main_body a
  end.

End Bootstrap.

(** ** Observations on a run *)

(** The events by which [main] touches the radio engine. *)
Definition engine_event (e : Event) : bool :=
  match e with
  | EvPrimaryCtor _ _ _ _ _ _ | EvSecondaryCtor _ _ _ _ _ | EvRun => true
  | _ => false
  end.

Definition no_engine (t : list Event) : Prop :=
  Forall (fun e => engine_event e = false) t.

(** The descriptor [OpenTunnel] obtains. *)
Definition tunnel_fd_of (os : OS) : Z := os_open os "/dev/net/tun" O_RDWR.

(** Every CHECK of the tunnel setup passes in this environment. *)
Definition tunnel_setup_ok (os : OS) (a : Args) : bool :=
  let name := strncpy_ifr_name (interface_name_arg a) in
  let fd := tunnel_fd_of os in
  (0 <=? fd)
  && (0 <=? os_ioctl os fd (TUNSETIFF name (Z.lor IFF_TUN IFF_NO_PI)))
  && (0 <=? os_socket_flags os)
  && (0 <=? os_ioctl os (os_socket_flags os) (SIOCSIFFLAGS name IFF_UP))
  && (0 <=? os_socket_addr os)
  && (os_inet_pton os (select_tunnel_ip a) =? 1)
  && (0 <=? os_ioctl os (os_socket_addr os) (SIOCSIFADDR name (select_tunnel_ip a)))
  && (os_inet_pton os (tunnel_ip_mask a) =? 1)
  && (0 <=? os_ioctl os (os_socket_addr os) (SIOCSIFNETMASK name (tunnel_ip_mask a))).

(** The events of a tunnel setup in which every CHECK passes, in the order
    of the calls: open and TUNSETIFF, then IFF_UP, then address and mask. *)
Definition tunnel_setup_trace (os : OS) (a : Args) : list Event :=
  let name := strncpy_ifr_name (interface_name_arg a) in
  let fd := tunnel_fd_of os in
  let s1 := os_socket_flags os in
  let s2 := os_socket_addr os in
  let ip := select_tunnel_ip a in
  let mask := tunnel_ip_mask a in
  [ EvOpen "/dev/net/tun" O_RDWR fd;
    EvIoctl fd (TUNSETIFF name (Z.lor IFF_TUN IFF_NO_PI))
      (os_ioctl os fd (TUNSETIFF name (Z.lor IFF_TUN IFF_NO_PI)));
    EvLogI "tunnel '%s' opened" [ArgS (interface_name_arg a)];
    EvSocket s1;
    EvIoctl s1 (SIOCSIFFLAGS name IFF_UP) (os_ioctl os s1 (SIOCSIFFLAGS name IFF_UP));
    EvClose s1;
    EvLogI "tunnel '%s' up" [ArgS (interface_name_arg a)];
    EvSocket s2;
    EvInetPton ip (os_inet_pton os ip);
    EvIoctl s2 (SIOCSIFADDR name ip) (os_ioctl os s2 (SIOCSIFADDR name ip));
    EvInetPton mask (os_inet_pton os mask);
    EvIoctl s2 (SIOCSIFNETMASK name mask) (os_ioctl os s2 (SIOCSIFNETMASK name mask));
    EvClose s2;
    EvLogI "tunnel '%s' configured with '%s' mask '%s'"
      [ArgS (interface_name_arg a); ArgS ip; ArgS mask];
    EvLogI "using channel '%i'" [ArgN (channel_arg a)] ].

(** The events of lines 154-170 and how they end, for the descriptor [fd]. *)
Definition engine_stage (os : OS) (a : Args) (fd : Z) : Proc Z :=
  let fin := if os_run_returns os then Ok 0 else Forever in
  if primary_arg a then
    let ctor := EvPrimaryCtor (ce_pin_arg a) fd (primary_addr_arg a)
                  (secondary_addr_arg a) (channel_arg a) (poll_interval_us_arg a) in
    if os_primary_ctor os (ce_pin_arg a) fd (primary_addr_arg a)
         (secondary_addr_arg a) (channel_arg a) (poll_interval_us_arg a)
    then ([ctor; EvSetTunnelLogsEnabled (enable_tunnel_logs_arg a); EvRun], fin)
    else ([ctor], Stop EngineQuit)
  else if secondary_arg a then
    let ctor := EvSecondaryCtor (ce_pin_arg a) fd (primary_addr_arg a)
                  (secondary_addr_arg a) (channel_arg a) in
    if os_secondary_ctor os (ce_pin_arg a) fd (primary_addr_arg a)
         (secondary_addr_arg a) (channel_arg a)
    then ([ctor; EvSetTunnelLogsEnabled (enable_tunnel_logs_arg a); EvRun], fin)
    else ([ctor], Stop EngineQuit)
  else ([EvLogFatal "Primary or secondary mode must be enabled"], Stop CheckQuit).

(** ** The fragmentation engine *)

Local Close Scope Z_scope.

Inductive FrameFlag : Type := POLL | DATA | ACK | EMPTY.

(** Modelled from the spec: the Frame of the data model (section 3), the
    unit exchanged over the radio. The frame codec and the fragmentation
    engine are not part of the file. *)
Record Frame : Type := {
  packet_id : N;
  fragment_index : nat;
  fragment_count : nat;
  flags : FrameFlag;
  payload_length : nat;
  payload : list Byte.byte
}.

(** Modelled from the spec: the ReassemblyBuffer of the data model
    (section 3); [rb_bytes] is the ordered byte buffer in which fragment
    [i] lies at offset [i * chunk]. *)
Record ReassemblyBuffer : Type := {
  rb_packet_id : N;
  rb_fragment_count : nat;
  rb_received : gset nat;
  rb_bytes : list Byte.byte;
  rb_created_at : nat
}.

Inductive IngestOutcome : Type :=
| Completed (packet : list Byte.byte)
| Incomplete
| CorruptFrame.

Section Fragmentation.

(** [chunk] is the payload capacity of a frame, [max_packet_size] the
    configured maximum packet size. *)
Variables (chunk max_packet_size : nat).

(** [ceil(len / chunk)], and one fragment for the empty packet. *)
Definition fragment_count_of (len : nat) : nat :=
  if len =? 0 then 1 else (len + chunk - 1) / chunk.

(** Fragment [i] carries bytes [[i*chunk, min((i+1)*chunk, len))]. *)
Definition fragment_of (pid : N) (P : list Byte.byte) (count i : nat) : Frame :=
  let lo := i * chunk in
  let hi := Nat.min ((i + 1) * chunk) (length P) in
  let slice := take (hi - lo) (drop lo P) in
  {| packet_id := pid; fragment_index := i; fragment_count := count;
     flags := DATA; payload_length := length slice; payload := slice |}.

(** Modelled from the spec: [encode_packet] of section 4.2, missing from
    the file. It fails ([None]) when the packet exceeds the maximum size. *)
Definition encode_packet (pid : N) (P : list Byte.byte) : option (list Frame) :=
  if max_packet_size <? length P then None
  else
    let count := fragment_count_of (length P) in
    Some (map (fragment_of pid P count) (seq 0 count)).

Definition new_buffer (pid : N) (count now : nat) : ReassemblyBuffer :=
  {| rb_packet_id := pid; rb_fragment_count := count; rb_received := ∅;
     rb_bytes := replicate (count * chunk) Byte.x00; rb_created_at := now |}.

(** Writing a fragment at its offset; the last fragment fixes the size of
    the packet. *)
Definition store_fragment (buf : list Byte.byte) (count idx : nat)
    (data : list Byte.byte) : list Byte.byte :=
  let off := idx * chunk in
  if S idx =? count then take off buf ++ data
  else take off buf ++ data ++ drop (off + length data) buf.

(** "complete only when [received] covers [[0, fragment_count)]" *)
Definition covers (received : gset nat) (count : nat) : bool :=
  bool_decide (set_seq 0 count ⊆ received).

(** Modelled from the spec: [ingest_fragment] of section 4.2, missing from
    the file. A frame with [fragment_count = 0] is control-only; an
    out-of-range index, count or length is a CorruptFrame and leaves the
    buffers as they are; a fragment already received is a no-op; the
    buffer is destroyed when the packet is complete. *)
Definition ingest_fragment (st : gmap N ReassemblyBuffer) (now : nat) (f : Frame)
    : gmap N ReassemblyBuffer * IngestOutcome :=
  if fragment_count f =? 0 then (st, Incomplete)
  else if negb (fragment_index f <? fragment_count f)
          || (chunk <? payload_length f)
          || negb (payload_length f =? length (payload f))
  then (st, CorruptFrame)
  else
    let b := default (new_buffer (packet_id f) (fragment_count f) now)
               (st !! packet_id f) in
    if negb (rb_fragment_count b =? fragment_count f) then (st, CorruptFrame)
    else if bool_decide (fragment_index f ∈ rb_received b) then (st, Incomplete)
    else
      let b' :=
        {| rb_packet_id := rb_packet_id b;
           rb_fragment_count := rb_fragment_count b;
           rb_received := {[fragment_index f]} ∪ rb_received b;
           rb_bytes := store_fragment (rb_bytes b) (rb_fragment_count b)
                         (fragment_index f) (payload f);
           rb_created_at := rb_created_at b |} in
      if covers (rb_received b') (rb_fragment_count b')
      then (delete (packet_id f) st, Completed (rb_bytes b'))
      else (<[packet_id f := b']> st, Incomplete).

(** [ingest_fragment] applied in order to a sequence of frames, the
    [i]-th ingestion at time [clock (n + i)]. *)
Fixpoint ingest_all (clock : nat -> nat) (n : nat)
    (st : gmap N ReassemblyBuffer) (fs : list Frame)
    : gmap N ReassemblyBuffer * list IngestOutcome :=
  match fs with
  | [] => (st, [])
  | f :: fs' =>
      let '(st1, r) := ingest_fragment st (clock n) f in
      let '(st2, rs) := ingest_all clock (S n) st1 fs' in
      (st2, r :: rs)
  end.

(** The buffer of packet [P] after its fragments [0 .. k-1] and no other
    have been ingested. *)
Definition buffer_after (P : list Byte.byte) (k : nat) (b : ReassemblyBuffer) : Prop :=
  rb_fragment_count b = fragment_count_of (length P) /\
  rb_received b = set_seq 0 k /\
  take (k * chunk) (rb_bytes b) = take (k * chunk) P /\
  length (rb_bytes b) = fragment_count_of (length P) * chunk.

End Fragmentation.

(** A packet of ten bytes. *)
Definition sample_packet : list Byte.byte :=
  [Byte.x01; Byte.x02; Byte.x03; Byte.x04; Byte.x05;
   Byte.x06; Byte.x07; Byte.x08; Byte.x09; Byte.x0a].

(** ** Vocabulary of the statements and concrete inputs *)

Local Open Scope Z_scope.

Definition ifr_name_of (req : IoctlReq) : string :=
  match req with
  | TUNSETIFF n _ | SIOCSIFFLAGS n _ | SIOCSIFADDR n _ | SIOCSIFNETMASK n _ => n
  end.

(** A run that was rejected at startup: the process stopped and the radio
    engine was neither constructed nor run. *)
Definition rejected_at_startup (p : Proc Z) : Prop :=
  (exists t, result p = Stop t) /\ no_engine (trace p).

(** The answer of the constructor of the engine that the role selects. *)
Definition ctor_returns (os : OS) (a : Args) : bool :=
  if primary_arg a then
    os_primary_ctor os (ce_pin_arg a) (tunnel_fd_of os) (primary_addr_arg a)
      (secondary_addr_arg a) (channel_arg a) (poll_interval_us_arg a)
  else
    os_secondary_ctor os (ce_pin_arg a) (tunnel_fd_of os) (primary_addr_arg a)
      (secondary_addr_arg a) (channel_arg a).

(** The constructor call of the engine that the role selects. *)
Definition ctor_event (os : OS) (a : Args) : Event :=
  if primary_arg a then
    EvPrimaryCtor (ce_pin_arg a) (tunnel_fd_of os) (primary_addr_arg a)
      (secondary_addr_arg a) (channel_arg a) (poll_interval_us_arg a)
  else
    EvSecondaryCtor (ce_pin_arg a) (tunnel_fd_of os) (primary_addr_arg a)
      (secondary_addr_arg a) (channel_arg a).

(** An option value that the 32-bit argument type accepts. *)
Definition fits_uint32 (v : option N) : Prop :=
  match v with
  | None => True
  | Some n => (n <= uint32_max)%N
  end.

Definition set_poll_interval (c : CmdLine) (p : option N) : CmdLine :=
  {| cl_interface_name := cl_interface_name c;
     cl_ce_pin := cl_ce_pin c;
     cl_primary := cl_primary c;
     cl_secondary := cl_secondary c;
     cl_tunnel_ip := cl_tunnel_ip c;
     cl_tunnel_mask := cl_tunnel_mask c;
     cl_primary_addr := cl_primary_addr c;
     cl_secondary_addr := cl_secondary_addr c;
     cl_channel := cl_channel c;
     cl_poll_interval_us := p;
     cl_enable_tunnel_logs := cl_enable_tunnel_logs c |}.

(** An environment in which every system call succeeds: descriptor 3 for
    the tunnel, 4 for the sockets. *)
Definition os_all_ok (ctor_ok run_returns : bool) : OS :=
  {| os_open := fun _ _ => 3;
     os_socket_flags := 4;
     os_socket_addr := 4;
     os_ioctl := fun _ _ => 0;
     os_inet_pton := fun _ => 1;
     os_primary_ctor := fun _ _ _ _ _ _ => ctor_ok;
     os_secondary_ctor := fun _ _ _ _ _ => ctor_ok;
     os_run_returns := run_returns |}.

(** An environment in which /dev/net/tun cannot be opened. *)
Definition os_no_tun : OS :=
  {| os_open := fun _ _ => -1;
     os_socket_flags := 4;
     os_socket_addr := 4;
     os_ioctl := fun _ _ => 0;
     os_inet_pton := fun _ => 1;
     os_primary_ctor := fun _ _ _ _ _ _ => true;
     os_secondary_ctor := fun _ _ _ _ _ => true;
     os_run_returns := false |}.

(** The command line with the two role switches and nothing else. *)
Definition cmd_roles (primary secondary : bool) : CmdLine :=
  {| cl_interface_name := None; cl_ce_pin := None;
     cl_primary := primary; cl_secondary := secondary;
     cl_tunnel_ip := None; cl_tunnel_mask := None;
     cl_primary_addr := None; cl_secondary_addr := None;
     cl_channel := None; cl_poll_interval_us := None;
     cl_enable_tunnel_logs := false |}.

(** [--primary --channel ch] and [--secondary --channel ch]. *)
Definition cmd_channel (primary : bool) (ch : N) : CmdLine :=
  {| cl_interface_name := None; cl_ce_pin := None;
     cl_primary := primary; cl_secondary := negb primary;
     cl_tunnel_ip := None; cl_tunnel_mask := None;
     cl_primary_addr := None; cl_secondary_addr := None;
     cl_channel := Some ch; cl_poll_interval_us := None;
     cl_enable_tunnel_logs := false |}.


(** [--secondary --tunnel_ip ip]. *)
Definition cmd_tunnel_ip (ip : string) : CmdLine :=
  {| cl_interface_name := None; cl_ce_pin := None;
     cl_primary := false; cl_secondary := true;
     cl_tunnel_ip := Some ip; cl_tunnel_mask := None;
     cl_primary_addr := None; cl_secondary_addr := None;
     cl_channel := None; cl_poll_interval_us := None;
     cl_enable_tunnel_logs := false |}.

(** The arguments after a successful parse of [cmd_roles]. *)
Definition args_roles (primary secondary : bool) : Args :=
  {| interface_name_arg := "nerf0"; ce_pin_arg := 22;
     primary_arg := primary; secondary_arg := secondary;
     tunnel_ip_arg := EmptyString; tunnel_ip_arg_isSet := false;
     tunnel_ip_mask := "255.255.255.0";
     primary_addr_arg := 0x90019001; secondary_addr_arg := 0x90009000;
     channel_arg := 1; poll_interval_us_arg := 100;
     enable_tunnel_logs_arg := false |}.

(** ** Further observations on a run *)

(** The calls into the operating system. *)
Definition is_syscall (e : Event) : bool :=
  match e with
  | EvOpen _ _ _ | EvSocket _ | EvIoctl _ _ _ | EvInetPton _ _ | EvClose _ => true
  | _ => false
  end.

Definition is_socket_or_close (e : Event) : bool :=
  match e with
  | EvSocket _ | EvClose _ => true
  | _ => false
  end.

Definition is_fatal (e : Event) : bool :=
  match e with
  | EvLogFatal _ => true
  | _ => false
  end.

(** The first CHECK of the tunnel setup that fails in this environment, in
    program order: the number of setup events that precede it and its
    message; [None] when every CHECK passes. *)
Definition first_failure (os : OS) (a : Args) : option (nat * string) :=
  let name := strncpy_ifr_name (interface_name_arg a) in
  let fd := tunnel_fd_of os in
  let s1 := os_socket_flags os in
  let s2 := os_socket_addr os in
  let ip := select_tunnel_ip a in
  let mask := tunnel_ip_mask a in
  if negb (0 <=? fd) then
    Some (1%nat, "Failed to open tunnel file: %s (%d)"%string)
  else if negb (0 <=? os_ioctl os fd (TUNSETIFF name (Z.lor IFF_TUN IFF_NO_PI))) then
    Some (2%nat, "Failed to set tunnel interface: %s (%d)"%string)
  else if negb (0 <=? s1) then
    Some (4%nat, "Failed to open socket: %s (%d)"%string)
  else if negb (0 <=? os_ioctl os s1 (SIOCSIFFLAGS name IFF_UP)) then
    Some (5%nat, "Failed to set tunnel interface: %s (%d)"%string)
  else if negb (0 <=? s2) then
    Some (8%nat, "Failed to open socket: %s (%d)"%string)
  else if negb (os_inet_pton os ip =? 1) then
    Some (9%nat, "Failed to assign IP address: %s (%d)"%string)
  else if negb (0 <=? os_ioctl os s2 (SIOCSIFADDR name ip)) then
    Some (10%nat, "Failed to set tunnel interface ip: %s (%d)"%string)
  else if negb (os_inet_pton os mask =? 1) then
    Some (11%nat, "Failed to assign IP mask: %s (%d)"%string)
  else if negb (0 <=? os_ioctl os s2 (SIOCSIFNETMASK name mask)) then
    Some (12%nat, "Failed to set tunnel interface mask: %s (%d)"%string)
  else None.

(** An environment in which [inet_pton] accepts [good] and nothing else,
    and every other call succeeds. *)
Definition os_pton_only (good : string) : OS :=
  {| os_open := fun _ _ => 3;
     os_socket_flags := 4;
     os_socket_addr := 4;
     os_ioctl := fun _ _ => 0;
     os_inet_pton := fun s => if String.eqb s good then 1 else 0;
     os_primary_ctor := fun _ _ _ _ _ _ => true;
     os_secondary_ctor := fun _ _ _ _ _ => true;
     os_run_returns := true |}.

(** [--primary --interface_name name]. *)
Definition cmd_interface (name : string) : CmdLine :=
  {| cl_interface_name := Some name; cl_ce_pin := None;
     cl_primary := true; cl_secondary := false;
     cl_tunnel_ip := None; cl_tunnel_mask := None;
     cl_primary_addr := None; cl_secondary_addr := None;
     cl_channel := None; cl_poll_interval_us := None;
     cl_enable_tunnel_logs := false |}.

(** [--primary --tunnel_mask mask]. *)
Definition cmd_tunnel_mask (mask : string) : CmdLine :=
  {| cl_interface_name := None; cl_ce_pin := None;
     cl_primary := true; cl_secondary := false;
     cl_tunnel_ip := None; cl_tunnel_mask := Some mask;
     cl_primary_addr := None; cl_secondary_addr := None;
     cl_channel := None; cl_poll_interval_us := None;
     cl_enable_tunnel_logs := false |}.

(** [--primary --tunnel_ip ip] or [--secondary --tunnel_ip ip]. *)
Definition cmd_role_tunnel_ip (primary : bool) (ip : string) : CmdLine :=
  {| cl_interface_name := None; cl_ce_pin := None;
     cl_primary := primary; cl_secondary := negb primary;
     cl_tunnel_ip := Some ip; cl_tunnel_mask := None;
     cl_primary_addr := None; cl_secondary_addr := None;
     cl_channel := None; cl_poll_interval_us := None;
     cl_enable_tunnel_logs := false |}.

(** What a call acts on, when it is a request or a close. *)
Definition acts_on_valid_descriptor (os : OS) (e : Event) : Prop :=
  match e with
  | EvIoctl fd (TUNSETIFF _ _) _ => fd = tunnel_fd_of os /\ 0 <= fd
  | EvIoctl fd (SIOCSIFFLAGS _ _) _ => fd = os_socket_flags os /\ 0 <= fd
  | EvIoctl fd (SIOCSIFADDR _ _) _ => fd = os_socket_addr os /\ 0 <= fd
  | EvIoctl fd (SIOCSIFNETMASK _ _) _ => fd = os_socket_addr os /\ 0 <= fd
  | EvClose fd => 0 <= fd
  | _ => True
  end.


(** ** The engine constructors of the design *)

Local Open Scope N_scope.

(** Modelled from the spec: the check of the link configuration, which no
    code under nerfnet_main.cc performs and which the design (sections 3, 6
    and 7) requires before the engine loop: the two radio addresses are
    distinct and non-zero and the channel lies within 1-128. *)
Definition link_config_ok (primary_addr secondary_addr channel : N) : bool :=
  negb (primary_addr =? secondary_addr)
  && negb (primary_addr =? 0)
  && negb (secondary_addr =? 0)
  && (1 <=? channel)
  && (channel <=? 128).

Local Close Scope N_scope.

(** Modelled from the spec: the constructors of PrimaryRadioInterface and
    SecondaryRadioInterface (nerfnet/net/primary_radio_interface.h and
    secondary_radio_interface.h, not part of the file). They check the link
    configuration first and end the process on an invalid one, a fatal
    ConfigurationError; on a valid one the outcome of the constructor stays
    the environment's (the radio chip may still fail to start). The
    operating system is untouched. *)
Definition spec_engine (os : OS) : OS :=
  {| os_open := os_open os;
     os_socket_flags := os_socket_flags os;
     os_socket_addr := os_socket_addr os;
     os_ioctl := os_ioctl os;
     os_inet_pton := os_inet_pton os;
     os_primary_ctor := fun ce fd pa sa ch poll =>
       link_config_ok pa sa ch && os_primary_ctor os ce fd pa sa ch poll;
     os_secondary_ctor := fun ce fd pa sa ch =>
       link_config_ok pa sa ch && os_secondary_ctor os ce fd pa sa ch;
     os_run_returns := os_run_returns os |}.



(** ** The model at work *)

(** [nerfnet --primary] where every call succeeds and the engine loop does
    not return. *)
Example run_primary_default :
  nerfnet_main (os_all_ok true false) (cmd_roles true false) =
    ([ EvOpen "/dev/net/tun" 2 3;
       EvIoctl 3 (TUNSETIFF "nerf0" 0x1001) 0;
       EvLogI "tunnel '%s' opened" [ArgS "nerf0"];
       EvSocket 4;
       EvIoctl 4 (SIOCSIFFLAGS "nerf0" 1) 0;
       EvClose 4;
       EvLogI "tunnel '%s' up" [ArgS "nerf0"];
       EvSocket 4;
       EvInetPton "192.168.10.1" 1;
       EvIoctl 4 (SIOCSIFADDR "nerf0" "192.168.10.1") 0;
       EvInetPton "255.255.255.0" 1;
       EvIoctl 4 (SIOCSIFNETMASK "nerf0" "255.255.255.0") 0;
       EvClose 4;
       EvLogI "tunnel '%s' configured with '%s' mask '%s'"
         [ArgS "nerf0"; ArgS "192.168.10.1"; ArgS "255.255.255.0"];
       EvLogI "using channel '%i'" [ArgN 1];
       EvPrimaryCtor 22 3 0x90019001 0x90009000 1 100;
       EvSetTunnelLogsEnabled false;
       EvRun ],
     Forever).
Proof. reflexivity. Qed.

(** The same command line when /dev/net/tun cannot be opened. *)
Example run_no_tun :
  nerfnet_main os_no_tun (cmd_roles true false) =
    ([ EvOpen "/dev/net/tun" 2 (-1);
       EvLogFatal "Failed to open tunnel file: %s (%d)" ],
     Stop CheckQuit).
Proof. reflexivity. Qed.

(** A packet of 1500 bytes in fragments of 28 bytes: 54 fragments, and one
    more byte than 53 full fragments already needs the 54th. *)
Example fragment_count_1500 :
  fragment_count_of 28 1500 = 54%nat /\
  fragment_count_of 28 (53 * 28) = 53%nat /\
  fragment_count_of 28 (53 * 28 + 1) = 54%nat /\
  fragment_count_of 28 0 = 1%nat.
Proof. repeat split; reflexivity. Qed.

(** A second delivery of a fragment changes nothing. *)
Example duplicate_fragment_ignored :
  let f0 := fragment_of 4 7%N sample_packet 3 0 in
  let st1 := fst (ingest_fragment 4 ∅ 0 f0) in
  ingest_fragment 4 st1 1 f0 = (st1, Incomplete).
Proof. vm_compute. reflexivity. Qed.

(** ** Lemmas on the bootstrap *)

Ltac unfold_main :=
  unfold main_body, OpenTunnel, SetInterfaceFlags, SetIPAddress,
    PrimaryRadioInterface, SecondaryRadioInterface, SetTunnelLogsEnabled, Run,
    LOGI, CHECK, sys_open, sys_socket, sys_ioctl, sys_inet_pton, sys_close,
    bind, emit, ret, stop, forever;
  change (to_short IFF_UP) with IFF_UP.

Lemma main_body_setup_ok (os : OS) (a : Args) :
  tunnel_setup_ok os a = true ->
  main_body os a =
    (tunnel_setup_trace os a ++ trace (engine_stage os a (tunnel_fd_of os)),
     result (engine_stage os a (tunnel_fd_of os))).
Proof.
  unfold tunnel_setup_ok, tunnel_setup_trace, engine_stage, tunnel_fd_of.
  intros H. repeat (apply andb_prop in H; destruct H as [H ?]).
  unfold_main.
  repeat match goal with E : _ = true |- _ => rewrite E; clear E end.
  repeat match goal with |- context [if ?b then _ else _] => destruct b end;
    reflexivity.
Qed.

Lemma no_engine_setup_trace (os : OS) (a : Args) :
  no_engine (tunnel_setup_trace os a).
Proof. unfold no_engine, tunnel_setup_trace. repeat constructor. Qed.

Ltac leftmost_conjunct b :=
  match b with
  | ?x && _ => leftmost_conjunct x
  | _ => b
  end.

(** Case analysis on the first CHECK that fails, in program order. *)
Ltac first_failing_check H :=
  match type of H with
  | true = false => discriminate H
  | ?c = false =>
      let b := leftmost_conjunct c in
      let E := fresh "E" in
      destruct b eqn:E;
      [ rewrite ?E in H; cbn [andb] in H; first_failing_check H | clear H ]
  end.

Ltac prefix_length n :=
  first [ exists n; eexists; reflexivity
        | prefix_length (S n) ].

(** A failing CHECK of the tunnel setup cuts the run short: a prefix of the
    setup events, then the fatal log line. *)
Lemma main_body_setup_fail (os : OS) (a : Args) :
  tunnel_setup_ok os a = false ->
  result (main_body os a) = Stop CheckQuit /\
  exists k fmt,
    trace (main_body os a) = take k (tunnel_setup_trace os a) ++ [EvLogFatal fmt].
Proof.
  unfold tunnel_setup_ok, tunnel_setup_trace, tunnel_fd_of. intros H. unfold_main.
  first_failing_check H.
  all: repeat match goal with E : _ = _ |- _ => rewrite E; clear E end.
  all: cbn; split; [reflexivity | prefix_length 0%nat].
Qed.

Lemma no_engine_app (t1 t2 : list Event) :
  no_engine t1 -> no_engine t2 -> no_engine (t1 ++ t2).
Proof. unfold no_engine. intros. by apply Forall_app. Qed.

Lemma no_engine_take (k : nat) (t : list Event) :
  no_engine t -> no_engine (take k t).
Proof. unfold no_engine. apply Forall_take. Qed.

Lemma no_engine_elem (t : list Event) (e : Event) :
  no_engine t -> e ∈ t -> engine_event e = false.
Proof. unfold no_engine. rewrite Forall_forall. auto. Qed.

Lemma elem_of_take_list {A} (k : nat) (l : list A) (x : A) :
  x ∈ take k l -> x ∈ l.
Proof.
  intros H. rewrite <- (take_drop k l). apply elem_of_app. by left.
Qed.

Lemma nerfnet_main_parsed (os : OS) (c : CmdLine) (a : Args) :
  parse c = Some a -> nerfnet_main os c = main_body os a.
Proof. unfold nerfnet_main. by intros ->. Qed.

Lemma nerfnet_main_rejected (os : OS) (c : CmdLine) :
  parse c = None -> nerfnet_main os c = ([EvParseFailure], Stop ParseExit).
Proof. unfold nerfnet_main. by intros ->. Qed.

Lemma value_arg_Some (max d : N) (given : option N) (v : N) :
  value_arg max d given = Some v -> v = default d given /\ (v <= max)%N \/
                                    given = None /\ v = d.
Proof.
  unfold value_arg. destruct given as [w|]; cbn.
  - destruct (w <=? max)%N eqn:E; [|discriminate].
    intros [= <-]. left. split; [done | by apply N.leb_le].
  - intros [= <-]. by right.
Qed.

Lemma value_arg_default (max d : N) (given : option N) (v : N) :
  value_arg max d given = Some v -> v = default d given.
Proof. intros H. apply value_arg_Some in H as [[-> _] | [-> ->]]; done. Qed.

(** What a successful parse hands to [main]: each value is the one given on
    the command line, or the default of the argument's declaration. *)
Lemma parse_Some (c : CmdLine) (a : Args) :
  parse c = Some a ->
  xorb (cl_primary c) (cl_secondary c) = true /\
  interface_name_arg a = default "nerf0"%string (cl_interface_name c) /\
  ce_pin_arg a = default 22%N (cl_ce_pin c) /\
  primary_arg a = cl_primary c /\
  secondary_arg a = cl_secondary c /\
  tunnel_ip_arg a = default EmptyString (cl_tunnel_ip c) /\
  tunnel_ip_arg_isSet a = bool_decide (is_Some (cl_tunnel_ip c)) /\
  tunnel_ip_mask a = default "255.255.255.0"%string (cl_tunnel_mask c) /\
  primary_addr_arg a = default 0x90019001%N (cl_primary_addr c) /\
  secondary_addr_arg a = default 0x90009000%N (cl_secondary_addr c) /\
  channel_arg a = default 1%N (cl_channel c) /\
  poll_interval_us_arg a = default 100%N (cl_poll_interval_us c) /\
  enable_tunnel_logs_arg a = cl_enable_tunnel_logs c.
Proof.
  unfold parse.
  destruct (xorb (cl_primary c) (cl_secondary c)) eqn:X; cbn [negb]; [|discriminate].
  destruct (value_arg uint16_max 22 (cl_ce_pin c)) as [ce|] eqn:E1; [|discriminate].
  destruct (value_arg uint32_max 2416021505 (cl_primary_addr c)) as [pa|] eqn:E2;
    [|discriminate].
  destruct (value_arg uint32_max 2415955968 (cl_secondary_addr c)) as [sa|] eqn:E3;
    [|discriminate].
  destruct (value_arg uint32_max 1 (cl_channel c)) as [ch|] eqn:E4; [|discriminate].
  destruct (value_arg uint32_max 100 (cl_poll_interval_us c)) as [po|] eqn:E5;
    [|discriminate].
  intros [= <-]. cbn.
  apply value_arg_default in E1, E2, E3, E4, E5. by subst.
Qed.

(** The three kinds of event of a run of [main] after the parse. *)
Lemma main_body_events (os : OS) (a : Args) (e : Event) :
  e ∈ trace (main_body os a) ->
  e ∈ tunnel_setup_trace os a \/
  (exists fmt, e = EvLogFatal fmt) \/
  (tunnel_setup_ok os a = true /\
   e ∈ trace (engine_stage os a (tunnel_fd_of os))).
Proof.
  destruct (tunnel_setup_ok os a) eqn:Hok.
  - rewrite (main_body_setup_ok _ _ Hok). cbn [trace fst].
    intros [H|H]%elem_of_app; [by left | right; right; done].
  - destruct (main_body_setup_fail _ _ Hok) as (_ & k & fmt & ->).
    intros [H|H]%elem_of_app.
    + left. by eapply elem_of_take_list.
    + right; left. exists fmt. by apply list_elem_of_singleton in H.
Qed.

Lemma engine_stage_events (os : OS) (a : Args) (fd : Z) (e : Event) :
  e ∈ trace (engine_stage os a fd) ->
  e = EvPrimaryCtor (ce_pin_arg a) fd (primary_addr_arg a) (secondary_addr_arg a)
        (channel_arg a) (poll_interval_us_arg a) /\ primary_arg a = true \/
  e = EvSecondaryCtor (ce_pin_arg a) fd (primary_addr_arg a) (secondary_addr_arg a)
        (channel_arg a) /\ primary_arg a = false /\ secondary_arg a = true \/
  e = EvSetTunnelLogsEnabled (enable_tunnel_logs_arg a) \/
  e = EvRun \/
  exists fmt, e = EvLogFatal fmt.
Proof.
  unfold engine_stage.
  destruct (primary_arg a); [|destruct (secondary_arg a)];
    repeat match goal with |- context [if ?b then _ else _] => destruct b end;
    cbn [trace fst]; intros H;
    repeat (apply elem_of_cons in H as [-> | H]); try (by apply elem_of_nil in H);
    eauto 10.
Qed.

(** The requests that the tunnel setup sends. *)
Lemma setup_trace_ioctl (os : OS) (a : Args) (fd : Z) (req : IoctlReq) (r : Z) :
  EvIoctl fd req r ∈ tunnel_setup_trace os a ->
  let name := strncpy_ifr_name (interface_name_arg a) in
  req = TUNSETIFF name (Z.lor IFF_TUN IFF_NO_PI) \/
  req = SIOCSIFFLAGS name IFF_UP \/
  req = SIOCSIFADDR name (select_tunnel_ip a) \/
  req = SIOCSIFNETMASK name (tunnel_ip_mask a).
Proof.
  unfold tunnel_setup_trace. intros H.
  repeat (apply elem_of_cons in H as [H | H];
          [try discriminate H; injection H as -> -> ->; cbn; tauto|]).
  by apply elem_of_nil in H.
Qed.

Lemma main_body_ioctl (os : OS) (a : Args) (fd : Z) (req : IoctlReq) (r : Z) :
  EvIoctl fd req r ∈ trace (main_body os a) ->
  EvIoctl fd req r ∈ tunnel_setup_trace os a.
Proof.
  intros H. apply main_body_events in H as [H | [[fmt H] | [_ H]]];
    [done | discriminate |].
  apply engine_stage_events in H as [[H _] | [[H _] | [H | [H | [fmt H]]]]];
    discriminate.
Qed.

(** After the parse exactly one role is selected. *)
Lemma parse_role (c : CmdLine) (a : Args) :
  parse c = Some a -> xorb (primary_arg a) (secondary_arg a) = true.
Proof.
  intros Hp. destruct (parse_Some _ _ Hp) as (X & _ & _ & -> & -> & _). done.
Qed.

(** ** Properties of the bootstrap *)

Lemma main_body_engine_reached (os : OS) (a : Args) (e : Event) :
  e ∈ trace (main_body os a) -> engine_event e = true ->
  tunnel_setup_ok os a = true.
Proof.
  intros He Hev. destruct (tunnel_setup_ok os a) eqn:Hok; [done|].
  destruct (main_body_setup_fail _ _ Hok) as (_ & k & fmt & Ht).
  rewrite Ht in He. apply elem_of_app in He as [He | He].
  - apply elem_of_take_list in He.
    rewrite (no_engine_elem _ _ (no_engine_setup_trace os a) He) in Hev.
    discriminate.
  - apply list_elem_of_singleton in He. subst e. discriminate.
Qed.

Lemma tunnel_fd_nonneg (os : OS) (a : Args) :
  tunnel_setup_ok os a = true -> 0 <= tunnel_fd_of os.
Proof.
  unfold tunnel_setup_ok. intros H.
  repeat (apply andb_prop in H; destruct H as [H ?]).
  by apply Z.leb_le.
Qed.

Lemma main_body_ctor_reached (os : OS) (a : Args) :
  tunnel_setup_ok os a = true ->
  (primary_arg a = true \/ secondary_arg a = true) ->
  ctor_event os a ∈ trace (main_body os a) /\
  (EvRun ∈ trace (main_body os a) <-> ctor_returns os a = true).
Proof.
  intros Hok Hrole. rewrite (main_body_setup_ok _ _ Hok). cbn [trace fst].
  unfold ctor_event, ctor_returns, engine_stage.
  assert (Hno : EvRun ∉ tunnel_setup_trace os a).
  { intros Hin. by apply (no_engine_elem _ _ (no_engine_setup_trace os a)) in Hin. }
  assert (Hsec : primary_arg a = false -> secondary_arg a = true)
    by (intros E; destruct Hrole; congruence).
  clear Hrole.
  destruct (primary_arg a); [|rewrite (Hsec eq_refl)]; clear Hsec;
    match goal with |- context [if ?b then _ else _] => destruct b end;
    cbn [trace fst]; rewrite !elem_of_app, !elem_of_cons, !elem_of_nil;
    (split; [tauto | intuition congruence]).
Qed.

(** [main] itself applies no range check to the channel: once the command
    line is parsed and the tunnel device is set up, the constructor of the
    selected engine is called with the channel value of the command line
    (or the default 1), whatever that value is, and [Run] is entered
    exactly when that constructor returns. A rejection of the channel can
    only come from the constructor. *)
Lemma channel_forwarded_unchecked (os : OS) (c : CmdLine) (a : Args) :
  parse c = Some a -> tunnel_setup_ok os a = true ->
  channel_arg a = default 1%N (cl_channel c) /\
  (primary_arg a = true ->
   EvPrimaryCtor (ce_pin_arg a) (tunnel_fd_of os) (primary_addr_arg a)
     (secondary_addr_arg a) (default 1%N (cl_channel c)) (poll_interval_us_arg a)
     ∈ trace (nerfnet_main os c)) /\
  (primary_arg a = false ->
   EvSecondaryCtor (ce_pin_arg a) (tunnel_fd_of os) (primary_addr_arg a)
     (secondary_addr_arg a) (default 1%N (cl_channel c))
     ∈ trace (nerfnet_main os c)) /\
  (EvRun ∈ trace (nerfnet_main os c) <-> ctor_returns os a = true).
Proof.
  intros Hp Hok. rewrite (nerfnet_main_parsed _ _ _ Hp).
  destruct (parse_Some _ _ Hp) as (X & _ & _ & Hpr & Hse & _ & _ & _ & _ & _ & Hch & _).
  assert (Hrole : primary_arg a = true \/ secondary_arg a = true).
  { rewrite Hpr, Hse. destruct (cl_primary c), (cl_secondary c); auto. }
  destruct (main_body_ctor_reached os a Hok Hrole) as [Hc Hr].
  rewrite <- Hch. unfold ctor_event in Hc.
  split; [done|]. split; [|split; [|done]]; intros E; by rewrite E in Hc.
Qed.

(** C3. A command line that gives both role switches or neither is
    rejected by the parse (xorAdd requires exactly one): the process exits
    before the tunnel is opened and without any call to a radio engine.
    And the last branch of [main] (line 169) backs this up: arguments with
    neither role set end in a failed CHECK, never in an engine. *)
Theorem exactly_one_role_required (os : OS) (c : CmdLine) :
  cl_primary c = cl_secondary c ->
  nerfnet_main os c = ([EvParseFailure], Stop ParseExit) /\
  rejected_at_startup (nerfnet_main os c) /\
  (forall a : Args, primary_arg a = false -> secondary_arg a = false ->
     result (main_body os a) = Stop CheckQuit /\
     no_engine (trace (main_body os a))).
Proof.
  intros Heq.
  assert (Hp : parse c = None).
  { unfold parse. rewrite Heq. by destruct (cl_secondary c). }
  rewrite (nerfnet_main_rejected _ _ Hp).
  split; [done|]. split.
  - split; [by exists ParseExit | repeat constructor].
  - intros a Ha Hb. destruct (tunnel_setup_ok os a) eqn:Hok.
    + rewrite (main_body_setup_ok _ _ Hok). unfold engine_stage.
      rewrite Ha, Hb. cbn [trace fst result snd]. split; [done|].
      apply no_engine_app; [apply no_engine_setup_trace | repeat constructor].
    + destruct (main_body_setup_fail _ _ Hok) as (Hr & k & fmt & Ht).
      split; [done|]. rewrite Ht.
      apply no_engine_app;
        [apply no_engine_take, no_engine_setup_trace | repeat constructor].
Qed.

Lemma exactly_one_role_required_witness :
  nerfnet_main (os_all_ok true true) (cmd_roles false false)
    = ([EvParseFailure], Stop ParseExit) /\
  nerfnet_main (os_all_ok true true) (cmd_roles true true)
    = ([EvParseFailure], Stop ParseExit) /\
  result (main_body (os_all_ok true true) (args_roles false false)) = Stop CheckQuit.
Proof.
  split; [|split].
  - exact (proj1 (exactly_one_role_required (os_all_ok true true)
                    (cmd_roles false false) eq_refl)).
  - exact (proj1 (exactly_one_role_required (os_all_ok true true)
                    (cmd_roles true true) eq_refl)).
  - exact (proj1 (proj2 (proj2 (exactly_one_role_required (os_all_ok true true)
                    (cmd_roles false false) eq_refl))
                  (args_roles false false) eq_refl eq_refl)).
Defined.

(** C4. Whenever a step of the tunnel setup fails (opening /dev/net/tun,
    TUNSETIFF, either socket, setting the interface flags, converting or
    assigning the IP address or the mask), the process logs the fatal
    message of the failed CHECK as its last event and quits; no engine is
    constructed and [Run] is never entered. *)
Theorem tunnel_failure_is_fatal (os : OS) (c : CmdLine) (a : Args) :
  parse c = Some a -> tunnel_setup_ok os a = false ->
  result (nerfnet_main os c) = Stop CheckQuit /\
  (exists fmt, last (trace (nerfnet_main os c)) = Some (EvLogFatal fmt)) /\
  no_engine (trace (nerfnet_main os c)).
Proof.
  intros Hp Hok. rewrite (nerfnet_main_parsed _ _ _ Hp).
  destruct (main_body_setup_fail _ _ Hok) as (Hr & k & fmt & Ht).
  split; [done|]. rewrite Ht. split.
  - exists fmt. apply last_snoc.
  - apply no_engine_app;
      [apply no_engine_take, no_engine_setup_trace | repeat constructor].
Qed.

Lemma tunnel_failure_is_fatal_witness :
  result (nerfnet_main os_no_tun (cmd_roles true false)) = Stop CheckQuit /\
  (exists fmt, last (trace (nerfnet_main os_no_tun (cmd_roles true false)))
               = Some (EvLogFatal fmt)) /\
  no_engine (trace (nerfnet_main os_no_tun (cmd_roles true false))).
Proof.
  apply (tunnel_failure_is_fatal os_no_tun (cmd_roles true false)
           (args_roles true false)); reflexivity.
Defined.

(** [main] itself does not validate the radio addresses: once the command
    line is parsed and the tunnel device is set up, both addresses of the
    command line (or their defaults) reach the constructor of the selected
    engine unchanged, and [Run] is entered exactly when that constructor
    returns. A rejection of the addresses can only come from the
    constructor. *)
Lemma addresses_forwarded_unchecked (os : OS) (c : CmdLine) (a : Args) :
  parse c = Some a -> tunnel_setup_ok os a = true ->
  primary_addr_arg a = default 0x90019001%N (cl_primary_addr c) /\
  secondary_addr_arg a = default 0x90009000%N (cl_secondary_addr c) /\
  (primary_arg a = true ->
   EvPrimaryCtor (ce_pin_arg a) (tunnel_fd_of os)
     (default 0x90019001%N (cl_primary_addr c))
     (default 0x90009000%N (cl_secondary_addr c))
     (channel_arg a) (poll_interval_us_arg a)
     ∈ trace (nerfnet_main os c)) /\
  (primary_arg a = false ->
   EvSecondaryCtor (ce_pin_arg a) (tunnel_fd_of os)
     (default 0x90019001%N (cl_primary_addr c))
     (default 0x90009000%N (cl_secondary_addr c))
     (channel_arg a)
     ∈ trace (nerfnet_main os c)) /\
  (EvRun ∈ trace (nerfnet_main os c) <-> ctor_returns os a = true).
Proof.
  intros Hp Hok. rewrite (nerfnet_main_parsed _ _ _ Hp).
  destruct (parse_Some _ _ Hp)
    as (X & _ & _ & Hpr & Hse & _ & _ & _ & Hpa & Hsa & _).
  assert (Hrole : primary_arg a = true \/ secondary_arg a = true).
  { rewrite Hpr, Hse. destruct (cl_primary c), (cl_secondary c); auto. }
  destruct (main_body_ctor_reached os a Hok Hrole) as [Hc Hr].
  rewrite <- Hpa, <- Hsa. unfold ctor_event in Hc.
  do 2 (split; [done|]). split; [|split; [|done]]; intros E; by rewrite E in Hc.
Qed.

(** C6. When the tunnel IP option is not given the address is fixed by the
    role, 192.168.10.1 for the primary and 192.168.10.2 for the secondary;
    when it is given, the value is used as it is. This is the address of
    every SIOCSIFADDR request of the run, and that request is sent whenever
    the tunnel setup goes through. *)
Theorem tunnel_ip_role_default (os : OS) (c : CmdLine) (a : Args) :
  parse c = Some a ->
  (cl_tunnel_ip c = None -> cl_primary c = true ->
   select_tunnel_ip a = "192.168.10.1"%string) /\
  (cl_tunnel_ip c = None -> cl_secondary c = true ->
   select_tunnel_ip a = "192.168.10.2"%string) /\
  (forall v, cl_tunnel_ip c = Some v -> select_tunnel_ip a = v) /\
  (forall fd name addr r,
     EvIoctl fd (SIOCSIFADDR name addr) r ∈ trace (nerfnet_main os c) ->
     addr = select_tunnel_ip a) /\
  (tunnel_setup_ok os a = true ->
   exists r, EvIoctl (os_socket_addr os)
               (SIOCSIFADDR (strncpy_ifr_name (interface_name_arg a))
                  (select_tunnel_ip a)) r ∈ trace (nerfnet_main os c)).
Proof.
  intros Hp. rewrite (nerfnet_main_parsed _ _ _ Hp).
  destruct (parse_Some _ _ Hp)
    as (X & _ & _ & Hpr & Hse & Hip & Hset & _).
  unfold select_tunnel_ip. rewrite Hset, Hpr, Hse, Hip.
  repeat split.
  - intros -> ->. reflexivity.
  - intros -> E. rewrite E in X |- *.
    destruct (cl_primary c); [discriminate X | reflexivity].
  - intros v ->. reflexivity.
  - intros fd name addr r H. apply main_body_ioctl, setup_trace_ioctl in H.
    cbn in H. destruct H as [H | [H | [H | H]]]; try discriminate H.
    injection H as _ ->. unfold select_tunnel_ip. by rewrite Hset, Hpr, Hse, Hip.
  - intros Hok. rewrite (main_body_setup_ok _ _ Hok). cbn [trace fst].
    eexists. apply elem_of_app. left. unfold tunnel_setup_trace.
    do 9 apply list_elem_of_further. unfold select_tunnel_ip.
    rewrite Hset, Hpr, Hse, Hip. apply list_elem_of_here.
Qed.

Lemma tunnel_ip_role_default_witness :
  select_tunnel_ip (args_roles true false) = "192.168.10.1"%string /\
  select_tunnel_ip (args_roles false true) = "192.168.10.2"%string /\
  select_tunnel_ip
    {| interface_name_arg := "nerf0"; ce_pin_arg := 22;
       primary_arg := false; secondary_arg := true;
       tunnel_ip_arg := "10.0.0.9"; tunnel_ip_arg_isSet := true;
       tunnel_ip_mask := "255.255.255.0";
       primary_addr_arg := 0x90019001; secondary_addr_arg := 0x90009000;
       channel_arg := 1; poll_interval_us_arg := 100;
       enable_tunnel_logs_arg := false |} = "10.0.0.9"%string.
Proof.
  split; [|split].
  - exact (proj1 (tunnel_ip_role_default (os_all_ok true false)
             (cmd_roles true false) (args_roles true false) eq_refl)
           eq_refl eq_refl).
  - exact (proj1 (proj2 (tunnel_ip_role_default (os_all_ok true false)
             (cmd_roles false true) (args_roles false true) eq_refl))
           eq_refl eq_refl).
  - exact (proj1 (proj2 (proj2 (tunnel_ip_role_default (os_all_ok true false)
             (cmd_tunnel_ip "10.0.0.9") _ eq_refl)))
           "10.0.0.9"%string eq_refl).
Defined.

Lemma parse_set_poll_interval (c : CmdLine) (p : option N) :
  fits_uint32 p ->
  parse (set_poll_interval c p) =
    match parse (set_poll_interval c None) with
    | None => None
    | Some a =>
        Some {| interface_name_arg := interface_name_arg a;
                ce_pin_arg := ce_pin_arg a;
                primary_arg := primary_arg a;
                secondary_arg := secondary_arg a;
                tunnel_ip_arg := tunnel_ip_arg a;
                tunnel_ip_arg_isSet := tunnel_ip_arg_isSet a;
                tunnel_ip_mask := tunnel_ip_mask a;
                primary_addr_arg := primary_addr_arg a;
                secondary_addr_arg := secondary_addr_arg a;
                channel_arg := channel_arg a;
                poll_interval_us_arg := default 100%N p;
                enable_tunnel_logs_arg := enable_tunnel_logs_arg a |}
    end.
Proof.
  intros Hp. unfold parse, set_poll_interval. cbn.
  destruct (negb (xorb (cl_primary c) (cl_secondary c))); [done|].
  destruct (value_arg uint16_max 22 (cl_ce_pin c)); [|done].
  destruct (value_arg uint32_max 2416021505 (cl_primary_addr c)); [|done].
  destruct (value_arg uint32_max 2415955968 (cl_secondary_addr c)); [|done].
  destruct (value_arg uint32_max 1 (cl_channel c)); [|done].
  destruct p as [v|]; cbn; [|done].
  cbn in Hp. apply N.leb_le in Hp. by rewrite Hp.
Qed.

(** The secondary branch of [main] never reads the poll interval. *)
Lemma main_body_secondary_poll (os : OS) (a : Args) (p : N) :
  primary_arg a = false ->
  main_body os
    {| interface_name_arg := interface_name_arg a;
       ce_pin_arg := ce_pin_arg a;
       primary_arg := primary_arg a;
       secondary_arg := secondary_arg a;
       tunnel_ip_arg := tunnel_ip_arg a;
       tunnel_ip_arg_isSet := tunnel_ip_arg_isSet a;
       tunnel_ip_mask := tunnel_ip_mask a;
       primary_addr_arg := primary_addr_arg a;
       secondary_addr_arg := secondary_addr_arg a;
       channel_arg := channel_arg a;
       poll_interval_us_arg := p;
       enable_tunnel_logs_arg := enable_tunnel_logs_arg a |}
  = main_body os a.
Proof.
  intros Hpr. unfold main_body, select_tunnel_ip. cbn. by rewrite Hpr.
Qed.

Lemma fits_uint32_dec (p : option N) : {fits_uint32 p} + {~ fits_uint32 p}.
Proof.
  destruct p as [v|]; cbn; [|by left].
  destruct (v <=? uint32_max)%N eqn:E.
  - left. by apply N.leb_le.
  - right. by apply N.leb_gt, N.lt_nge in E.
Qed.

(** A poll interval that does not fit the 32-bit type fails the parse. *)
Lemma parse_poll_unfit (c : CmdLine) (p : option N) :
  ~ fits_uint32 p -> parse (set_poll_interval c p) = None.
Proof.
  intros Hp. destruct p as [v|]; [|by destruct Hp].
  cbn in Hp. unfold parse, set_poll_interval. cbn.
  destruct (negb (xorb (cl_primary c) (cl_secondary c))); [done|].
  replace (v <=? uint32_max)%N with false
    by (symmetry; apply N.leb_gt; lia).
  by repeat match goal with |- context [match ?x with _ => _ end] => destruct x end.
Qed.

(** C7. The poll interval is read by the primary branch only. Two command
    lines of the secondary role that differ in nothing but the poll
    interval give the same run, event for event, and the secondary engine
    is constructed by a call that takes no poll interval at all. The
    primary engine is constructed with the poll interval of the command
    line (100 when the option is left out): that constructor call is made
    whenever the tunnel setup goes through, and no other call of the
    primary constructor occurs. *)
Theorem poll_interval_primary_only (os : OS) (c : CmdLine) (p1 p2 : option N) :
  (fits_uint32 p1 <-> fits_uint32 p2) ->
  (cl_secondary c = true ->
   nerfnet_main os (set_poll_interval c p1) = nerfnet_main os (set_poll_interval c p2)) /\
  (forall ce fd pa sa ch poll,
     EvPrimaryCtor ce fd pa sa ch poll ∈ trace (nerfnet_main os (set_poll_interval c p1)) ->
     poll = default 100%N p1 /\ cl_primary c = true) /\
  (forall a,
     parse (set_poll_interval c p1) = Some a -> tunnel_setup_ok os a = true ->
     (cl_primary c = true ->
      EvPrimaryCtor (ce_pin_arg a) (tunnel_fd_of os) (primary_addr_arg a)
        (secondary_addr_arg a) (channel_arg a) (default 100%N p1)
        ∈ trace (nerfnet_main os (set_poll_interval c p1))) /\
     (cl_secondary c = true ->
      EvSecondaryCtor (ce_pin_arg a) (tunnel_fd_of os) (primary_addr_arg a)
        (secondary_addr_arg a) (channel_arg a)
        ∈ trace (nerfnet_main os (set_poll_interval c p1)))).
Proof.
  intros Hfit. split; [|split].
  - intros Hsec. unfold nerfnet_main.
    destruct (fits_uint32_dec p1) as [H1 | H1].
    + pose proof (proj1 Hfit H1) as H2.
      rewrite (parse_set_poll_interval c p1 H1), (parse_set_poll_interval c p2 H2).
      destruct (parse (set_poll_interval c None)) as [a|] eqn:Hp; [|done].
      destruct (parse_Some _ _ Hp) as (X & _ & _ & Hpr & Hse & _).
      cbn in X, Hpr, Hse. rewrite Hsec in X.
      assert (primary_arg a = false) as Hno
        by (rewrite Hpr; destruct (cl_primary c); [discriminate X | done]).
      by rewrite !main_body_secondary_poll.
    + assert (H2 : ~ fits_uint32 p2) by tauto.
      by rewrite (parse_poll_unfit c p1 H1), (parse_poll_unfit c p2 H2).
  - intros ce fd pa sa ch poll H.
    destruct (parse (set_poll_interval c p1)) as [a|] eqn:Hp.
    + rewrite (nerfnet_main_parsed _ _ _ Hp) in H.
      destruct (parse_Some _ _ Hp) as (_ & _ & _ & Hpr & _ & _ & _ & _ & _ & _ & _ & Hpo & _).
      cbn in Hpr, Hpo.
      apply main_body_events in H as [H | [[fmt H] | [_ H]]].
      * by apply (no_engine_elem _ _ (no_engine_setup_trace os a)) in H.
      * discriminate H.
      * apply engine_stage_events in H
          as [[H Ht] | [[H _] | [H | [H | [fmt H]]]]]; try discriminate H.
        injection H as _ _ _ _ _ ->. by rewrite <- Hpr, Hpo.
    + rewrite (nerfnet_main_rejected _ _ Hp) in H.
      apply list_elem_of_singleton in H. discriminate H.
  - intros a Hp Hok. rewrite (nerfnet_main_parsed _ _ _ Hp).
    destruct (parse_Some _ _ Hp) as (X & _ & _ & Hpr & Hse & _ & _ & _ & _ & _ & _ & Hpo & _).
    cbn in X, Hpr, Hse, Hpo. rewrite <- Hpo.
    assert (Hrole : primary_arg a = true \/ secondary_arg a = true).
    { rewrite Hpr, Hse. destruct (cl_primary c), (cl_secondary c); auto. }
    destruct (main_body_ctor_reached os a Hok Hrole) as [Hc _].
    unfold ctor_event in Hc. split.
    + intros E. by rewrite Hpr, E in Hc.
    + intros E. rewrite E in X.
      destruct (cl_primary c) eqn:E'; [discriminate X|]. by rewrite Hpr in Hc.
Qed.

Lemma poll_interval_primary_only_witness :
  nerfnet_main (os_all_ok true false) (set_poll_interval (cmd_roles false true) (Some 5%N))
  = nerfnet_main (os_all_ok true false) (set_poll_interval (cmd_roles false true) None)
  /\
  EvPrimaryCtor 22 3 0x90019001 0x90009000 1 5
    ∈ trace (nerfnet_main (os_all_ok true false)
               (set_poll_interval (cmd_roles true false) (Some 5%N))).
Proof.
  split.
  - refine (proj1 (poll_interval_primary_only (os_all_ok true false)
                     (cmd_roles false true) (Some 5%N) None _) eq_refl).
    split; intros _; [exact I | cbn; unfold uint32_max; lia].
  - refine (proj1 (proj2 (proj2 (poll_interval_primary_only (os_all_ok true false)
                     (cmd_roles true false) (Some 5%N) (Some 5%N) _))
              {| interface_name_arg := "nerf0"; ce_pin_arg := 22;
                 primary_arg := true; secondary_arg := false;
                 tunnel_ip_arg := EmptyString; tunnel_ip_arg_isSet := false;
                 tunnel_ip_mask := "255.255.255.0";
                 primary_addr_arg := 0x90019001; secondary_addr_arg := 0x90009000;
                 channel_arg := 1; poll_interval_us_arg := 5;
                 enable_tunnel_logs_arg := false |} _ _) _);
      reflexivity.
Defined.

Lemma not_run_in (t : list Event) :
  forallb (fun e => match e with EvRun => false | _ => true end) t = true ->
  EvRun ∉ t.
Proof.
  intros H Hin. apply list_elem_of_In in Hin.
  rewrite forallb_forall in H. by apply H in Hin.
Qed.

(** C8. The configuration is fixed by the parse: the values that reach the
    engine constructor and the tunnel requests are the parsed ones, each
    the command-line value or its declared default, and after [Run] has
    been entered [main] performs no further step. *)
Theorem configuration_read_once (os : OS) (c : CmdLine) (a : Args) :
  parse c = Some a ->
  (forall ce fd pa sa ch poll,
     EvPrimaryCtor ce fd pa sa ch poll ∈ trace (nerfnet_main os c) ->
     ce = default 22%N (cl_ce_pin c) /\
     pa = default 0x90019001%N (cl_primary_addr c) /\
     sa = default 0x90009000%N (cl_secondary_addr c) /\
     ch = default 1%N (cl_channel c) /\
     poll = default 100%N (cl_poll_interval_us c)) /\
  (forall ce fd pa sa ch,
     EvSecondaryCtor ce fd pa sa ch ∈ trace (nerfnet_main os c) ->
     ce = default 22%N (cl_ce_pin c) /\
     pa = default 0x90019001%N (cl_primary_addr c) /\
     sa = default 0x90009000%N (cl_secondary_addr c) /\
     ch = default 1%N (cl_channel c)) /\
  (forall fd req r,
     EvIoctl fd req r ∈ trace (nerfnet_main os c) ->
     let name := strncpy_ifr_name (default "nerf0"%string (cl_interface_name c)) in
     req = TUNSETIFF name (Z.lor IFF_TUN IFF_NO_PI) \/
     req = SIOCSIFFLAGS name IFF_UP \/
     req = SIOCSIFADDR name (select_tunnel_ip a) \/
     req = SIOCSIFNETMASK name (default "255.255.255.0"%string (cl_tunnel_mask c))) /\
  (forall pre post,
     trace (nerfnet_main os c) = pre ++ EvRun :: post -> post = []).
Proof.
  intros Hp. rewrite (nerfnet_main_parsed _ _ _ Hp).
  destruct (parse_Some _ _ Hp)
    as (_ & Hn & Hce & _ & _ & _ & _ & Hm & Hpa & Hsa & Hch & Hpo & _).
  split; [|split; [|split]].
  - intros ce fd pa sa ch poll H.
    apply main_body_events in H as [H | [[fmt H] | [_ H]]].
    + by apply (no_engine_elem _ _ (no_engine_setup_trace os a)) in H.
    + discriminate H.
    + apply engine_stage_events in H
        as [[H _] | [[H _] | [H | [H | [fmt H]]]]]; try discriminate H.
      injection H as -> _ -> -> -> ->. done.
  - intros ce fd pa sa ch H.
    apply main_body_events in H as [H | [[fmt H] | [_ H]]].
    + by apply (no_engine_elem _ _ (no_engine_setup_trace os a)) in H.
    + discriminate H.
    + apply engine_stage_events in H
        as [[H _] | [[H _] | [H | [H | [fmt H]]]]]; try discriminate H.
      injection H as -> _ -> -> ->. done.
  - intros fd req r H. apply main_body_ioctl, setup_trace_ioctl in H.
    cbn in H. cbn. by rewrite <- Hn, <- Hm.
  - intros pre post H.
    destruct (tunnel_setup_ok os a) eqn:Hok.
    + rewrite (main_body_setup_ok _ _ Hok) in H. cbn [trace fst] in H.
      assert (Hs : EvRun ∉ tunnel_setup_trace os a).
      { intros Hin.
        by apply (no_engine_elem _ _ (no_engine_setup_trace os a)) in Hin. }
      assert (He : trace (engine_stage os a (tunnel_fd_of os)) =
                   [ctor_event os a; EvSetTunnelLogsEnabled (enable_tunnel_logs_arg a);
                    EvRun] \/
                  EvRun ∉ trace (engine_stage os a (tunnel_fd_of os))).
      { unfold engine_stage, ctor_event.
        destruct (primary_arg a); [|destruct (secondary_arg a)];
          repeat match goal with |- context [if ?b then _ else _] => destruct b end;
          cbn [trace fst]; first [by left | right; by apply not_run_in]. }
      destruct He as [He | He].
      * rewrite He in H.
        change [ctor_event os a; EvSetTunnelLogsEnabled (enable_tunnel_logs_arg a); EvRun]
          with ([ctor_event os a; EvSetTunnelLogsEnabled (enable_tunnel_logs_arg a)]
                  ++ [EvRun]) in H.
        rewrite app_assoc in H.
        destruct post as [|x post] using rev_ind; [done|].
        exfalso. clear IHpost.
        rewrite app_comm_cons, app_assoc in H.
        apply app_inj_tail in H as [H _].
        assert (Hin : EvRun ∈ tunnel_setup_trace os a ++
                  [ctor_event os a; EvSetTunnelLogsEnabled (enable_tunnel_logs_arg a)]).
        { rewrite H. apply elem_of_app. right. apply list_elem_of_here. }
        apply elem_of_app in Hin as [Hin | Hin]; [done|].
        unfold ctor_event in Hin.
        destruct (primary_arg a); revert Hin; by apply not_run_in.
      * exfalso.
        assert (Hin : EvRun ∈ tunnel_setup_trace os a
                               ++ trace (engine_stage os a (tunnel_fd_of os))).
        { rewrite H. apply elem_of_app. right. apply list_elem_of_here. }
        apply elem_of_app in Hin as [Hin | Hin]; done.
    + destruct (main_body_setup_fail _ _ Hok) as (_ & k & fmt & Ht).
      exfalso.
      assert (Hin : EvRun ∈ take k (tunnel_setup_trace os a) ++ [EvLogFatal fmt]).
      { rewrite <- Ht, H. apply elem_of_app. right. apply list_elem_of_here. }
      apply elem_of_app in Hin as [Hin | Hin].
      * apply elem_of_take_list in Hin.
        by apply (no_engine_elem _ _ (no_engine_setup_trace os a)) in Hin.
      * apply list_elem_of_singleton in Hin. discriminate Hin.
Qed.

Lemma configuration_read_once_witness :
  22%N = default 22%N (cl_ce_pin (cmd_channel true 7)) /\
  0x90019001%N = default 0x90019001%N (cl_primary_addr (cmd_channel true 7)) /\
  0x90009000%N = default 0x90009000%N (cl_secondary_addr (cmd_channel true 7)) /\
  7%N = default 1%N (cl_channel (cmd_channel true 7)) /\
  100%N = default 100%N (cl_poll_interval_us (cmd_channel true 7)).
Proof.
  refine (proj1 (configuration_read_once (os_all_ok true true)
            (cmd_channel true 7)
            {| interface_name_arg := "nerf0"; ce_pin_arg := 22;
               primary_arg := true; secondary_arg := false;
               tunnel_ip_arg := EmptyString; tunnel_ip_arg_isSet := false;
               tunnel_ip_mask := "255.255.255.0";
               primary_addr_arg := 0x90019001; secondary_addr_arg := 0x90009000;
               channel_arg := 7; poll_interval_us_arg := 100;
               enable_tunnel_logs_arg := false |} _) 22%N 3 _ _ 7%N 100%N _).
  - reflexivity.
  - vm_compute. do 15 apply list_elem_of_further. apply list_elem_of_here.
Defined.

(** C9. When the interface name option is left out the name is "nerf0":
    every request of the run names that interface, and a tunnel setup that
    goes through opens it (TUNSETIFF), brings it up (SIOCSIFFLAGS with
    IFF_UP) and assigns its address and mask under that name. *)
Theorem default_interface_name (os : OS) (c : CmdLine) (a : Args) :
  cl_interface_name c = None -> parse c = Some a ->
  interface_name_arg a = "nerf0"%string /\
  (forall fd req r,
     EvIoctl fd req r ∈ trace (nerfnet_main os c) ->
     ifr_name_of req = "nerf0"%string) /\
  (tunnel_setup_ok os a = true ->
   exists r1 r2 r3 r4,
     EvIoctl (tunnel_fd_of os) (TUNSETIFF "nerf0" (Z.lor IFF_TUN IFF_NO_PI)) r1
       ∈ trace (nerfnet_main os c) /\
     EvIoctl (os_socket_flags os) (SIOCSIFFLAGS "nerf0" IFF_UP) r2
       ∈ trace (nerfnet_main os c) /\
     EvIoctl (os_socket_addr os) (SIOCSIFADDR "nerf0" (select_tunnel_ip a)) r3
       ∈ trace (nerfnet_main os c) /\
     EvIoctl (os_socket_addr os) (SIOCSIFNETMASK "nerf0" (tunnel_ip_mask a)) r4
       ∈ trace (nerfnet_main os c)).
Proof.
  intros Hnone Hp. rewrite (nerfnet_main_parsed _ _ _ Hp).
  destruct (parse_Some _ _ Hp) as (_ & Hn & _).
  rewrite Hnone in Hn. cbn in Hn.
  assert (Hname : strncpy_ifr_name (interface_name_arg a) = "nerf0"%string)
    by (rewrite Hn; reflexivity).
  split; [done|]. split.
  - intros fd req r H. apply main_body_ioctl, setup_trace_ioctl in H.
    cbn in H. rewrite Hname in H.
    destruct H as [-> | [-> | [-> | ->]]]; reflexivity.
  - intros Hok. rewrite (main_body_setup_ok _ _ Hok). cbn [trace fst].
    unfold tunnel_setup_trace. rewrite Hname.
    do 4 eexists. rewrite !elem_of_app, !elem_of_cons. tauto.
Qed.

Lemma default_interface_name_witness :
  interface_name_arg (args_roles false true) = "nerf0"%string.
Proof.
  exact (proj1 (default_interface_name (os_all_ok true false)
                  (cmd_roles false true) (args_roles false true) eq_refl eq_refl)).
Defined.

(** C10. In every run that reaches the radio engine the tunnel setup came
    first and went through: the trace begins with the setup events (open
    and TUNSETIFF, then IFF_UP, then address and mask, in this order), none
    of which touches the engine; the next event is the constructor call of
    the selected engine, and the descriptor it receives is the one
    [OpenTunnel] returned, which is a valid (non-negative) descriptor. *)
Theorem tunnel_setup_precedes_engine (os : OS) (c : CmdLine) (e : Event) :
  e ∈ trace (nerfnet_main os c) -> engine_event e = true ->
  exists a post,
    parse c = Some a /\
    tunnel_setup_ok os a = true /\
    trace (nerfnet_main os c) = tunnel_setup_trace os a ++ ctor_event os a :: post /\
    no_engine (tunnel_setup_trace os a) /\
    0 <= tunnel_fd_of os /\
    (ctor_returns os a = true ->
     post = [EvSetTunnelLogsEnabled (enable_tunnel_logs_arg a); EvRun]) /\
    (ctor_returns os a = false -> post = []).
Proof.
  intros He Hev. destruct (parse c) as [a|] eqn:Hp.
  - rewrite (nerfnet_main_parsed _ _ _ Hp) in *.
    pose proof (main_body_engine_reached os a e He Hev) as Hok.
    rewrite (main_body_setup_ok _ _ Hok) in *. cbn [trace fst] in *.
    apply elem_of_app in He as [He | He].
    { rewrite (no_engine_elem _ _ (no_engine_setup_trace os a) He) in Hev.
      discriminate Hev. }
    exists a. revert He. unfold engine_stage, ctor_event, ctor_returns.
    destruct (primary_arg a); [|destruct (secondary_arg a)];
      repeat match goal with |- context [if ?b then _ else _] => destruct b end;
      cbn [trace fst]; intros He;
      try (apply list_elem_of_singleton in He; subst e; discriminate Hev);
      (eexists; split; [reflexivity|]; split; [done|];
       split; [reflexivity|]; split; [apply no_engine_setup_trace|];
       split; [by eapply tunnel_fd_nonneg|]; split; congruence).
  - rewrite (nerfnet_main_rejected _ _ Hp) in He.
    apply list_elem_of_singleton in He. subst e. discriminate Hev.
Qed.

Lemma tunnel_setup_precedes_engine_witness :
  exists a post,
    parse (cmd_roles true false) = Some a /\
    tunnel_setup_ok (os_all_ok true false) a = true /\
    trace (nerfnet_main (os_all_ok true false) (cmd_roles true false))
      = tunnel_setup_trace (os_all_ok true false) a
        ++ ctor_event (os_all_ok true false) a :: post /\
    no_engine (tunnel_setup_trace (os_all_ok true false) a) /\
    0 <= tunnel_fd_of (os_all_ok true false) /\
    (ctor_returns (os_all_ok true false) a = true ->
     post = [EvSetTunnelLogsEnabled (enable_tunnel_logs_arg a); EvRun]) /\
    (ctor_returns (os_all_ok true false) a = false -> post = []).
Proof.
  apply (tunnel_setup_precedes_engine (os_all_ok true false)
           (cmd_roles true false) EvRun).
  - vm_compute. do 17 apply list_elem_of_further. apply list_elem_of_here.
  - reflexivity.
Defined.

(** ** Rejection of an invalid link configuration *)

(** Channel 128 is the last one accepted and 0 and 129 are refused, when
    every call succeeds and the engine loop does not return. *)
Example channel_bounds :
  result (nerfnet_main (spec_engine (os_all_ok true false)) (cmd_channel true 1)) = Forever /\
  result (nerfnet_main (spec_engine (os_all_ok true false)) (cmd_channel true 128)) = Forever /\
  result (nerfnet_main (spec_engine (os_all_ok true false)) (cmd_channel true 0))
    = Stop EngineQuit /\
  result (nerfnet_main (spec_engine (os_all_ok true false)) (cmd_channel false 129))
    = Stop EngineQuit.
Proof. repeat split; reflexivity. Qed.









(** ** The fragmentation round trip *)

Local Close Scope Z_scope.

Section RoundTrip.

Variables (chunk max_packet_size : nat).
Hypothesis chunk_pos : 0 < chunk.

Variable pid : N.
Variable P : list Byte.byte.

Local Abbreviation count := (fragment_count_of chunk (length P)).

Lemma fragment_count_pos : 1 <= count.
Proof.
  unfold fragment_count_of. destruct (length P =? 0) eqn:E; [done|].
  apply Nat.eqb_neq in E. apply Nat.div_str_pos. lia.
Qed.

(** All fragments but the last are full. *)
Lemma fragment_count_lower : (count - 1) * chunk <= length P.
Proof.
  unfold fragment_count_of. destruct (length P =? 0) eqn:E; [cbn; lia|].
  apply Nat.eqb_neq in E.
  pose proof (Nat.div_mod_eq (length P + chunk - 1) chunk) as Hd.
  pose proof (Nat.mod_upper_bound (length P + chunk - 1) chunk ltac:(lia)) as Hm.
  nia.
Qed.

(** The fragments cover the packet. *)
Lemma fragment_count_upper : length P <= count * chunk.
Proof.
  unfold fragment_count_of. destruct (length P =? 0) eqn:E.
  - apply Nat.eqb_eq in E. lia.
  - apply Nat.eqb_neq in E.
    pose proof (Nat.div_mod_eq (length P + chunk - 1) chunk) as Hd.
    pose proof (Nat.mod_upper_bound (length P + chunk - 1) chunk ltac:(lia)) as Hm.
    nia.
Qed.

Lemma payload_middle (k : nat) :
  S k < count ->
  payload (fragment_of chunk pid P count k) = take chunk (drop (k * chunk) P).
Proof.
  intros Hk. cbn. f_equal.
  pose proof fragment_count_lower. nia.
Qed.

Lemma payload_last (k : nat) :
  S k = count ->
  payload (fragment_of chunk pid P count k) = drop (k * chunk) P.
Proof.
  intros Hk. cbn.
  pose proof fragment_count_upper. pose proof fragment_count_lower.
  apply take_ge. rewrite length_drop. nia.
Qed.

Lemma payload_length_le (k : nat) :
  length (payload (fragment_of chunk pid P count k)) <= chunk.
Proof. cbn. rewrite length_take, length_drop. nia. Qed.

Lemma buffer_after_new (now : nat) : buffer_after chunk P 0 (new_buffer chunk pid count now).
Proof.
  unfold buffer_after, new_buffer. cbn.
  repeat split. apply length_replicate.
Qed.

Lemma covers_set_seq (k n : nat) :
  covers ({[k]} ∪ set_seq 0 k) n = bool_decide (n <= S k).
Proof.
  unfold covers. apply bool_decide_ext.
  change ({[k]} ∪ set_seq 0 k : gset nat) with ({[0 + k]} ∪ set_seq 0 k : gset nat).
  rewrite <- set_seq_S_end_union_L. split.
  - intros Hsub. destruct n as [|n]; [lia|].
    assert (Hin : n ∈ (set_seq 0 (S n) : gset nat)) by (apply elem_of_set_seq; lia).
    apply Hsub, elem_of_set_seq in Hin. lia.
  - intros Hle x Hx%elem_of_set_seq. apply elem_of_set_seq. lia.
Qed.

(** The frame checks of [ingest_fragment] pass on an encoded fragment. *)
Lemma ingest_encoded (st : gmap N ReassemblyBuffer) (now k : nat) :
  k < count ->
  buffer_after chunk P k (default (new_buffer chunk pid count now) (st !! pid)) ->
  ingest_fragment chunk st now (fragment_of chunk pid P count k) =
    let b := default (new_buffer chunk pid count now) (st !! pid) in
    let b' :=
      {| rb_packet_id := rb_packet_id b;
         rb_fragment_count := count;
         rb_received := {[k]} ∪ set_seq 0 k;
         rb_bytes := store_fragment chunk (rb_bytes b) count k
                       (payload (fragment_of chunk pid P count k));
         rb_created_at := rb_created_at b |} in
    if bool_decide (count <= S k)
    then (delete pid st, Completed (rb_bytes b'))
    else (<[pid := b']> st, Incomplete).
Proof.
  intros Hk (Hc & Hr & _ & _).
  unfold ingest_fragment.
  change (fragment_count (fragment_of chunk pid P count k)) with count.
  change (fragment_index (fragment_of chunk pid P count k)) with k.
  change (packet_id (fragment_of chunk pid P count k)) with pid.
  change (payload_length (fragment_of chunk pid P count k))
    with (length (payload (fragment_of chunk pid P count k))).
  pose proof (payload_length_le k) as Hl.
  set (b := default (new_buffer chunk pid count now) (st !! pid)) in *.
  replace (count =? 0) with false by (symmetry; apply Nat.eqb_neq; lia).
  replace (k <? count) with true by (symmetry; by apply Nat.ltb_lt).
  replace (chunk <? length (payload (fragment_of chunk pid P count k)))
    with false by (symmetry; apply Nat.ltb_ge; lia).
  rewrite Nat.eqb_refl. cbn [negb orb].
  rewrite Hc, Nat.eqb_refl. cbn [negb].
  rewrite Hr. rewrite bool_decide_eq_false_2
    by (rewrite elem_of_set_seq; lia).
  cbn [rb_received rb_fragment_count rb_bytes].
  rewrite covers_set_seq. reflexivity.
Qed.

Lemma store_last (k : nat) (b : ReassemblyBuffer) :
  S k = count -> buffer_after chunk P k b ->
  store_fragment chunk (rb_bytes b) count k
    (payload (fragment_of chunk pid P count k)) = P.
Proof.
  intros Hk (_ & _ & Ht & _). unfold store_fragment.
  replace (S k =? count) with true by (symmetry; by apply Nat.eqb_eq).
  rewrite Ht, (payload_last k Hk). apply take_drop.
Qed.

Lemma store_middle (k : nat) (b : ReassemblyBuffer) :
  S k < count -> buffer_after chunk P k b ->
  buffer_after chunk P (S k)
    {| rb_packet_id := rb_packet_id b;
       rb_fragment_count := count;
       rb_received := {[k]} ∪ set_seq 0 k;
       rb_bytes := store_fragment chunk (rb_bytes b) count k
                     (payload (fragment_of chunk pid P count k));
       rb_created_at := rb_created_at b |}.
Proof.
  intros Hk (Hc & Hr & Ht & Hl). unfold buffer_after.
  cbn [rb_fragment_count rb_received rb_bytes].
  pose proof fragment_count_lower as Hlow.
  assert (Hfull : (k * chunk + chunk <= length P)) by nia.
  split; [done|]. split; [symmetry; apply (set_seq_S_end_union_L 0 k)|].
  unfold store_fragment.
  replace (S k =? count) with false by (symmetry; apply Nat.eqb_neq; lia).
  rewrite Ht, (payload_middle k Hk).
  assert (Hlt : length (take (k * chunk) P) = k * chunk)
    by (rewrite length_take; lia).
  assert (Hlc : length (take chunk (drop (k * chunk) P)) = chunk)
    by (rewrite length_take, length_drop; lia).
  split.
  - rewrite app_assoc, take_app_le by (rewrite length_app, Hlt, Hlc; lia).
    rewrite take_ge by (rewrite length_app, Hlt, Hlc; lia).
    rewrite take_take_drop. f_equal. lia.
  - rewrite !length_app, Hlt, Hlc, length_drop, Hl. nia.
Qed.

(** Ingesting the fragments [k .. count-1] of the packet, in order, into a
    state that holds the fragments [0 .. k-1]: no completion before the
    last fragment, the packet at the last, and the buffer is gone. *)
Lemma ingest_remaining (clock : nat -> nat) (m : nat) :
  forall (k n : nat) (st : gmap N ReassemblyBuffer),
    k + S m = count ->
    (forall now, buffer_after chunk P k (default (new_buffer chunk pid count now) (st !! pid))) ->
    ingest_all chunk clock n st (map (fragment_of chunk pid P count) (seq k (S m)))
    = (delete pid st, replicate m Incomplete ++ [Completed P]).
Proof.
  induction m as [|m IH]; intros k n st Hk Hb.
  - cbn [seq map ingest_all].
    rewrite (ingest_encoded st (clock n) k ltac:(lia) (Hb _)). cbn zeta.
    rewrite bool_decide_eq_true_2 by lia.
    cbn [rb_bytes]. rewrite (store_last k _ ltac:(lia) (Hb _)). reflexivity.
  - change (seq k (S (S m))) with (k :: seq (S k) (S m)).
    cbn [map ingest_all].
    rewrite (ingest_encoded st (clock n) k ltac:(lia) (Hb _)). cbn zeta.
    rewrite bool_decide_eq_false_2 by lia.
    rewrite (IH (S k) (S n)).
    + by rewrite delete_insert_eq.
    + lia.
    + intros now. rewrite lookup_insert_eq. cbn [default].
      apply (store_middle k _ ltac:(lia) (Hb _)).
Qed.

(** C2. Round trip: a packet within the maximum size is encoded, and
    ingesting its frames in order (into reassembly state that holds no
    buffer for its packet id, at any times) completes exactly once, at the
    last frame and with the packet itself; every earlier frame is
    incomplete, and the reassembly state is left as it was found. *)
Theorem round_trip (clock : nat -> nat) (n : nat) (st : gmap N ReassemblyBuffer) :
  length P <= max_packet_size ->
  st !! pid = None ->
  exists frames,
    encode_packet chunk max_packet_size pid P = Some frames /\
    length frames = fragment_count_of chunk (length P) /\
    ingest_all chunk clock n st frames
      = (st, replicate (length frames - 1) Incomplete ++ [Completed P]).
Proof.
  intros Hlen Hst. unfold encode_packet.
  replace (max_packet_size <? length P) with false
    by (symmetry; apply Nat.ltb_ge; lia).
  eexists. split; [reflexivity|].
  rewrite length_map, length_seq. split; [reflexivity|].
  pose proof fragment_count_pos as Hpos.
  replace (seq 0 count) with (seq 0 (S (count - 1))) by (f_equal; lia).
  rewrite (ingest_remaining clock (count - 1) 0 n st).
  - by rewrite delete_id.
  - lia.
  - intros now. rewrite Hst. apply buffer_after_new.
Qed.

End RoundTrip.

(** Three fragments of at most four bytes for a packet of ten. *)
Lemma round_trip_witness :
  exists frames,
    encode_packet 4 1500 7%N sample_packet = Some frames /\
    length frames = fragment_count_of 4 (length sample_packet) /\
    ingest_all 4 (fun i => i) 0 ∅ frames
      = (∅, replicate (length frames - 1) Incomplete ++ [Completed sample_packet]).
Proof.
  apply (round_trip 4 1500 (Nat.lt_0_succ 3) 7%N sample_packet (fun i => i) 0 ∅).
  - cbn. lia.
  - reflexivity.
Defined.

(** ** More on the bootstrap *)

Local Open Scope Z_scope.

(** The run of [main] after the parse, in full: up to the first failing
    CHECK and its message, or through the setup and into the engine. *)
Lemma main_body_exact (os : OS) (a : Args) :
  main_body os a =
    match first_failure os a with
    | Some (k, fmt) =>
        (take k (tunnel_setup_trace os a) ++ [EvLogFatal fmt], Stop CheckQuit)
    | None =>
        (tunnel_setup_trace os a ++ trace (engine_stage os a (tunnel_fd_of os)),
         result (engine_stage os a (tunnel_fd_of os)))
    end.
Proof.
  destruct (first_failure os a) as [[k fmt]|] eqn:Hf.
  - revert Hf. unfold first_failure, tunnel_setup_trace, tunnel_fd_of.
    unfold_main.
    repeat match goal with
    | |- context [if negb ?b then Some _ else _] =>
        let E := fresh "E" in
        destruct b eqn:E; cbn [negb]; [|by intros [= <- <-]]
    end.
    discriminate.
  - apply main_body_setup_ok. revert Hf.
    unfold first_failure, tunnel_setup_ok.
    repeat match goal with
    | |- context [if negb ?b then Some _ else _] =>
        let E := fresh "E" in
        destruct b eqn:E; cbn [negb]; [|discriminate]
    end.
    reflexivity.
Qed.

Lemma first_failure_bound (os : OS) (a : Args) (k : nat) (fmt : string) :
  first_failure os a = Some (k, fmt) -> (1 <= k <= 12)%nat.
Proof.
  unfold first_failure.
  repeat match goal with
  | |- context [if negb ?b then Some _ else _] =>
      destruct b; cbn [negb]; [|intros [= <- <-]; lia]
  end.
  discriminate.
Qed.

(** X1. [OpenTunnel] keeps the contract of its comment: it returns the
    descriptor of /dev/net/tun, which is then non-negative and has taken
    the TUNSETIFF request, or it logs a fatal line and quits; when the open
    fails no request is sent at all. *)
Theorem OpenTunnel_valid_fd_or_quit (os : OS) (device_name : string) :
  let fd := os_open os "/dev/net/tun" O_RDWR in
  let req := TUNSETIFF (strncpy_ifr_name device_name) (Z.lor IFF_TUN IFF_NO_PI) in
  let status := os_ioctl os fd req in
  match OpenTunnel os device_name with
  | (t, Ok r) =>
      r = fd /\ 0 <= fd /\ 0 <= status /\
      t = [EvOpen "/dev/net/tun" O_RDWR fd; EvIoctl fd req status]
  | (t, Stop q) =>
      q = CheckQuit /\
      (fd < 0 /\
       t = [EvOpen "/dev/net/tun" O_RDWR fd;
            EvLogFatal "Failed to open tunnel file: %s (%d)"]
       \/
       0 <= fd /\ status < 0 /\
       t = [EvOpen "/dev/net/tun" O_RDWR fd; EvIoctl fd req status;
            EvLogFatal "Failed to set tunnel interface: %s (%d)"])
  | (t, Forever) => False
  end.
Proof.
  cbv zeta. unfold OpenTunnel, CHECK, sys_open, sys_ioctl, bind, emit, ret, stop.
  destruct (0 <=? os_open os "/dev/net/tun" O_RDWR) eqn:E1.
  - destruct (0 <=? os_ioctl os (os_open os "/dev/net/tun" O_RDWR)
                      (TUNSETIFF (strncpy_ifr_name device_name) (Z.lor IFF_TUN IFF_NO_PI)))
      eqn:E2; cbn.
    + apply Z.leb_le in E1, E2. auto.
    + apply Z.leb_le in E1. apply Z.leb_gt in E2. split; [done|]. right. auto.
  - cbn. apply Z.leb_gt in E1. split; [done|]. left. auto.
Qed.

Lemma to_short_range (z : Z) : -32768 <= to_short z <= 32767.
Proof.
  unfold to_short. pose proof (Z.mod_pos_bound (z + 32768) 65536 ltac:(lia)). lia.
Qed.

Lemma to_short_congruent (z : Z) : (to_short z - z) mod 65536 = 0.
Proof.
  unfold to_short.
  pose proof (Z.div_mod (z + 32768) 65536 ltac:(lia)) as Hd.
  replace ((z + 32768) mod 65536 - 32768 - z)
    with (- ((z + 32768) / 65536) * 65536) by lia.
  apply Z_mod_mult.
Qed.

(** Flags that fit a [short] pass unchanged. *)
Lemma to_short_small (z : Z) : -32768 <= z <= 32767 -> to_short z = z.
Proof.
  intros H. unfold to_short. rewrite Z.mod_small by lia. lia.
Qed.

(** What the narrowing does to flags that do not fit, and to [IFF_UP]. *)
Example to_short_values :
  to_short 65537 = 1 /\ to_short 32768 = -32768 /\ to_short IFF_UP = IFF_UP.
Proof. repeat split; reflexivity. Qed.

(** X2. [SetInterfaceFlags] returns exactly when the socket and the
    SIOCSIFFLAGS request succeed, and it has then closed its socket as its
    last step. The request carries the flags as the 16-bit [ifr_flags]
    holds them: the value within [-32768, 32767] that agrees with the
    argument modulo 65536, which is the argument itself when that fits.
    When the request fails the function quits with the socket still open. *)
Theorem SetInterfaceFlags_contract (os : OS) (device_name : string) (flags : Z) :
  let s := os_socket_flags os in
  let req := SIOCSIFFLAGS (strncpy_ifr_name device_name) (to_short flags) in
  let status := os_ioctl os s req in
  match SetInterfaceFlags os device_name flags with
  | (t, Ok _) =>
      0 <= s /\ 0 <= status /\ t = [EvSocket s; EvIoctl s req status; EvClose s]
  | (t, Stop q) =>
      q = CheckQuit /\
      (s < 0 /\ t = [EvSocket s; EvLogFatal "Failed to open socket: %s (%d)"]
       \/
       0 <= s /\ status < 0 /\
       t = [EvSocket s; EvIoctl s req status;
            EvLogFatal "Failed to set tunnel interface: %s (%d)"])
  | (t, Forever) => False
  end /\
  -32768 <= to_short flags <= 32767 /\
  (to_short flags - flags) mod 65536 = 0 /\
  to_short (to_short flags) = to_short flags.
Proof.
  cbv zeta. split; [|split; [apply to_short_range|split;
    [apply to_short_congruent | apply to_short_small, to_short_range]]].
  unfold SetInterfaceFlags, CHECK, sys_socket, sys_ioctl, sys_close,
    bind, emit, ret, stop.
  destruct (0 <=? os_socket_flags os) eqn:E1.
  - destruct (0 <=? os_ioctl os (os_socket_flags os)
                      (SIOCSIFFLAGS (strncpy_ifr_name device_name) (to_short flags)))
      eqn:E2; cbn.
    + apply Z.leb_le in E1, E2. auto.
    + apply Z.leb_le in E1. apply Z.leb_gt in E2. split; [done|]. right. auto.
  - cbn. apply Z.leb_gt in E1. split; [done|]. left. auto.
Qed.

(** X3. [SetIPAddress] converts and assigns the address before it looks at
    the mask. It returns exactly when the socket, both conversions and both
    requests succeed, and has then closed its socket. An address that does
    not convert stops it before any request; a mask that does not convert
    stops it after the address has been assigned. *)
Theorem SetIPAddress_contract (os : OS) (device_name ip ip_mask : string) :
  let s := os_socket_addr os in
  let name := strncpy_ifr_name device_name in
  let r_ip := os_inet_pton os ip in
  let st_ip := os_ioctl os s (SIOCSIFADDR name ip) in
  let r_mask := os_inet_pton os ip_mask in
  let st_mask := os_ioctl os s (SIOCSIFNETMASK name ip_mask) in
  match SetIPAddress os device_name ip ip_mask with
  | (t, Ok _) =>
      0 <= s /\ r_ip = 1 /\ 0 <= st_ip /\ r_mask = 1 /\ 0 <= st_mask /\
      t = [EvSocket s; EvInetPton ip r_ip; EvIoctl s (SIOCSIFADDR name ip) st_ip;
           EvInetPton ip_mask r_mask;
           EvIoctl s (SIOCSIFNETMASK name ip_mask) st_mask; EvClose s]
  | (t, Stop q) =>
      q = CheckQuit /\
      (s < 0 /\ t = [EvSocket s; EvLogFatal "Failed to open socket: %s (%d)"]
       \/
       0 <= s /\ r_ip <> 1 /\
       t = [EvSocket s; EvInetPton ip r_ip;
            EvLogFatal "Failed to assign IP address: %s (%d)"]
       \/
       0 <= s /\ r_ip = 1 /\ st_ip < 0 /\
       t = [EvSocket s; EvInetPton ip r_ip; EvIoctl s (SIOCSIFADDR name ip) st_ip;
            EvLogFatal "Failed to set tunnel interface ip: %s (%d)"]
       \/
       0 <= s /\ r_ip = 1 /\ 0 <= st_ip /\ r_mask <> 1 /\
       t = [EvSocket s; EvInetPton ip r_ip; EvIoctl s (SIOCSIFADDR name ip) st_ip;
            EvInetPton ip_mask r_mask;
            EvLogFatal "Failed to assign IP mask: %s (%d)"]
       \/
       0 <= s /\ r_ip = 1 /\ 0 <= st_ip /\ r_mask = 1 /\ st_mask < 0 /\
       t = [EvSocket s; EvInetPton ip r_ip; EvIoctl s (SIOCSIFADDR name ip) st_ip;
            EvInetPton ip_mask r_mask;
            EvIoctl s (SIOCSIFNETMASK name ip_mask) st_mask;
            EvLogFatal "Failed to set tunnel interface mask: %s (%d)"])
  | (t, Forever) => False
  end.
Proof.
  cbv zeta.
  unfold SetIPAddress, CHECK, sys_socket, sys_ioctl, sys_inet_pton, sys_close,
    bind, emit, ret, stop.
  destruct (0 <=? os_socket_addr os) eqn:E1;
    [apply Z.leb_le in E1 | apply Z.leb_gt in E1; cbn; split; [done|]; left; auto].
  destruct (os_inet_pton os ip =? 1) eqn:E2;
    [apply Z.eqb_eq in E2
    | apply Z.eqb_neq in E2; cbn; split; [done|]; right; left; auto].
  destruct (0 <=? os_ioctl os (os_socket_addr os)
                    (SIOCSIFADDR (strncpy_ifr_name device_name) ip)) eqn:E3;
    [apply Z.leb_le in E3
    | apply Z.leb_gt in E3; cbn; split; [done|]; right; right; left; auto].
  destruct (os_inet_pton os ip_mask =? 1) eqn:E4;
    [apply Z.eqb_eq in E4
    | apply Z.eqb_neq in E4; cbn; split; [done|]; do 3 right; left; auto 6].
  destruct (0 <=? os_ioctl os (os_socket_addr os)
                    (SIOCSIFNETMASK (strncpy_ifr_name device_name) ip_mask)) eqn:E5;
    [apply Z.leb_le in E5; cbn; auto 7
    | apply Z.leb_gt in E5; cbn; split; [done|]; do 4 right; auto 7].
Qed.

Lemma first_failure_None (os : OS) (a : Args) :
  first_failure os a = None <-> tunnel_setup_ok os a = true.
Proof.
  unfold first_failure, tunnel_setup_ok.
  repeat match goal with
  | |- context [if negb ?b then Some _ else _] =>
      destruct b; cbn [negb andb]; [|split; discriminate]
  end.
  done.
Qed.

Lemma setup_trace_not_fatal (os : OS) (a : Args) (fmt : string) :
  EvLogFatal fmt ∉ tunnel_setup_trace os a.
Proof.
  unfold tunnel_setup_trace. intros H.
  repeat (apply elem_of_cons in H as [H | H]; [discriminate H|]).
  by apply elem_of_nil in H.
Qed.

(** With a role selected the engine stage logs no fatal line. *)
Lemma engine_stage_not_fatal (os : OS) (a : Args) (fd : Z) (fmt : string) :
  xorb (primary_arg a) (secondary_arg a) = true ->
  EvLogFatal fmt ∉ trace (engine_stage os a fd).
Proof.
  unfold engine_stage. intros X H. revert X H.
  destruct (primary_arg a), (secondary_arg a); try discriminate; intros _;
    repeat match goal with |- context [if ?b then _ else _] => destruct b end;
    cbn [trace fst]; intros H;
    repeat (apply elem_of_cons in H as [H | H]; [discriminate H|]);
    by apply elem_of_nil in H.
Qed.

(** The message of a failed CHECK shows how far the setup came. *)
Lemma first_failure_mask (os : OS) (a : Args) (k : nat) :
  first_failure os a = Some (k, "Failed to assign IP mask: %s (%d)"%string) ->
  let name := strncpy_ifr_name (interface_name_arg a) in
  k = 11%nat /\
  0 <= tunnel_fd_of os /\
  0 <= os_ioctl os (tunnel_fd_of os) (TUNSETIFF name (Z.lor IFF_TUN IFF_NO_PI)) /\
  0 <= os_ioctl os (os_socket_flags os) (SIOCSIFFLAGS name IFF_UP) /\
  0 <= os_ioctl os (os_socket_addr os) (SIOCSIFADDR name (select_tunnel_ip a)) /\
  os_inet_pton os (tunnel_ip_mask a) <> 1.
Proof.
  unfold first_failure. cbv zeta.
  repeat match goal with
  | |- context [if negb ?b then Some _ else _] =>
      let E := fresh "E" in
      destruct b eqn:E; cbn [negb];
      [| intros [= <-];
         repeat match goal with
         | H : (_ <=? _) = true |- _ => apply Z.leb_le in H
         | H : (_ =? _) = false |- _ => apply Z.eqb_neq in H
         end; auto 10]
  end.
  discriminate.
Qed.

(** X4. A tunnel mask that does not convert is found late. Whenever a run
    ends on "Failed to assign IP mask", the interface has by then been
    created, brought up and given its address, each of these requests
    having succeeded; only the netmask request is never sent. *)
Theorem invalid_mask_found_late (os : OS) (c : CmdLine) (a : Args) :
  parse c = Some a ->
  EvLogFatal "Failed to assign IP mask: %s (%d)" ∈ trace (nerfnet_main os c) ->
  let name := strncpy_ifr_name (interface_name_arg a) in
  result (nerfnet_main os c) = Stop CheckQuit /\
  os_inet_pton os (tunnel_ip_mask a) <> 1 /\
  trace (nerfnet_main os c) =
    take 11 (tunnel_setup_trace os a)
    ++ [EvLogFatal "Failed to assign IP mask: %s (%d)"] /\
  0 <= os_ioctl os (tunnel_fd_of os) (TUNSETIFF name (Z.lor IFF_TUN IFF_NO_PI)) /\
  0 <= os_ioctl os (os_socket_flags os) (SIOCSIFFLAGS name IFF_UP) /\
  0 <= os_ioctl os (os_socket_addr os) (SIOCSIFADDR name (select_tunnel_ip a)) /\
  forall fd nm m r,
    EvIoctl fd (SIOCSIFNETMASK nm m) r ∉ trace (nerfnet_main os c).
Proof.
  intros Hp. rewrite (nerfnet_main_parsed _ _ _ Hp), main_body_exact.
  destruct (first_failure os a) as [[k fmt]|] eqn:Hf; cbn [trace fst result snd].
  - intros [Hin | Hin]%elem_of_app.
    { apply elem_of_take_list in Hin. by apply setup_trace_not_fatal in Hin. }
    apply list_elem_of_singleton in Hin. injection Hin as <-.
    destruct (first_failure_mask _ _ _ Hf) as (-> & Hfd & H1 & H2 & H3 & Hm).
    cbv zeta. repeat (split; [done|]).
    intros fd nm m r H. unfold tunnel_setup_trace in H. cbn [take app] in H.
    repeat (apply elem_of_cons in H as [H | H]; [discriminate H|]).
    by apply elem_of_nil in H.
  - intros [Hin | Hin]%elem_of_app.
    + by apply setup_trace_not_fatal in Hin.
    + by apply engine_stage_not_fatal in Hin; [|eapply parse_role].
Qed.

Lemma invalid_mask_found_late_witness :
  trace (nerfnet_main (os_pton_only "192.168.10.1") (cmd_tunnel_mask "255.255.255"))
  = [ EvOpen "/dev/net/tun" 2 3;
      EvIoctl 3 (TUNSETIFF "nerf0" 0x1001) 0;
      EvLogI "tunnel '%s' opened" [ArgS "nerf0"];
      EvSocket 4;
      EvIoctl 4 (SIOCSIFFLAGS "nerf0" 1) 0;
      EvClose 4;
      EvLogI "tunnel '%s' up" [ArgS "nerf0"];
      EvSocket 4;
      EvInetPton "192.168.10.1" 1;
      EvIoctl 4 (SIOCSIFADDR "nerf0" "192.168.10.1") 0;
      EvInetPton "255.255.255" 0;
      EvLogFatal "Failed to assign IP mask: %s (%d)" ].
Proof.
  refine (proj1 (proj2 (proj2 (invalid_mask_found_late (os_pton_only "192.168.10.1")
            (cmd_tunnel_mask "255.255.255")
            {| interface_name_arg := "nerf0"; ce_pin_arg := 22;
               primary_arg := true; secondary_arg := false;
               tunnel_ip_arg := EmptyString; tunnel_ip_arg_isSet := false;
               tunnel_ip_mask := "255.255.255";
               primary_addr_arg := 0x90019001; secondary_addr_arg := 0x90009000;
               channel_arg := 1; poll_interval_us_arg := 100;
               enable_tunnel_logs_arg := false |} _ _)))).
  - reflexivity.
  - vm_compute. do 11 apply list_elem_of_further. apply list_elem_of_here.
Defined.

(** X5. How a run of [main] ends, in every environment: a rejected command
    line exits in the parser; a failed CHECK of the tunnel setup quits; an
    engine constructor that does not return ends the process; otherwise the
    engine loop runs, and [main] returns, with status 0, only if the loop
    returns. *)
Theorem main_outcome (os : OS) (c : CmdLine) :
  result (nerfnet_main os c) =
    match parse c with
    | None => Stop ParseExit
    | Some a =>
        if negb (tunnel_setup_ok os a) then Stop CheckQuit
        else if negb (ctor_returns os a) then Stop EngineQuit
        else if os_run_returns os then Ok 0
        else Forever
    end.
Proof.
  destruct (parse c) as [a|] eqn:Hp.
  - rewrite (nerfnet_main_parsed _ _ _ Hp).
    destruct (tunnel_setup_ok os a) eqn:Hok; cbn [negb].
    + rewrite (main_body_setup_ok _ _ Hok). cbn [result snd].
      pose proof (parse_role _ _ Hp) as X. revert X.
      unfold engine_stage, ctor_returns.
      destruct (primary_arg a), (secondary_arg a); try discriminate; intros _;
        [ destruct (os_primary_ctor os (ce_pin_arg a) (tunnel_fd_of os)
                      (primary_addr_arg a) (secondary_addr_arg a)
                      (channel_arg a) (poll_interval_us_arg a))
        | destruct (os_secondary_ctor os (ce_pin_arg a) (tunnel_fd_of os)
                      (primary_addr_arg a) (secondary_addr_arg a)
                      (channel_arg a)) ];
        destruct (os_run_returns os); reflexivity.
    + by destruct (main_body_setup_fail _ _ Hok) as [-> _].
  - by rewrite (nerfnet_main_rejected _ _ Hp).
Qed.

Lemma first_failure_not_role (os : OS) (a : Args) (k : nat) :
  first_failure os a
    <> Some (k, "Primary or secondary mode must be enabled"%string).
Proof.
  unfold first_failure.
  repeat match goal with
  | |- context [if negb ?b then Some _ else _] =>
      destruct b; cbn [negb]; [|discriminate]
  end.
  discriminate.
Qed.

(** X6. The last branch of [main] is dead once the parser requires a role:
    no run, in any environment, logs "Primary or secondary mode must be
    enabled". *)
Theorem role_check_never_fires (os : OS) (c : CmdLine) :
  EvLogFatal "Primary or secondary mode must be enabled" ∉ trace (nerfnet_main os c).
Proof.
  destruct (parse c) as [a|] eqn:Hp.
  - rewrite (nerfnet_main_parsed _ _ _ Hp), main_body_exact.
    destruct (first_failure os a) as [[k fmt]|] eqn:Hf; cbn [trace fst].
    + intros [Hin | Hin]%elem_of_app.
      * apply elem_of_take_list in Hin. by apply setup_trace_not_fatal in Hin.
      * apply list_elem_of_singleton in Hin. injection Hin as <-.
        by apply first_failure_not_role in Hf.
    + intros [Hin | Hin]%elem_of_app.
      * by apply setup_trace_not_fatal in Hin.
      * by apply engine_stage_not_fatal in Hin; [|eapply parse_role].
  - rewrite (nerfnet_main_rejected _ _ Hp). cbn [trace fst].
    intros Hin%list_elem_of_singleton. discriminate Hin.
Qed.

Lemma filter_nil_take {A} (f : A -> bool) (k : nat) (l : list A) :
  List.filter f l = [] -> List.filter f (take k l) = [].
Proof.
  revert k. induction l as [|x l IH]; intros [|k] H; try reflexivity.
  cbn in *. destruct (f x); [discriminate H | auto].
Qed.

Lemma filter_nil_app {A} (f : A -> bool) (l1 l2 : list A) :
  List.filter f l1 = [] -> List.filter f l2 = [] -> List.filter f (l1 ++ l2) = [].
Proof. intros H1 H2. by rewrite List.filter_app, H1, H2. Qed.

(** The engine stage makes no system call. *)
Lemma engine_stage_no_syscall (os : OS) (a : Args) (fd : Z) :
  List.filter is_syscall (trace (engine_stage os a fd)) = [] /\
  List.filter is_socket_or_close (trace (engine_stage os a fd)) = [].
Proof.
  unfold engine_stage.
  destruct (primary_arg a); [|destruct (secondary_arg a)];
    repeat match goal with |- context [if ?b then _ else _] => destruct b end;
    split; reflexivity.
Qed.

Ltac prefix_of_four :=
  first [ by exists 0%nat | by exists 1%nat | by exists 2%nat
        | by exists 3%nat | by exists 4%nat ].

(** X7. The helpers close the sockets they open and nothing else. Over a
    whole run the socket and close calls are a prefix of: socket, close of
    it, socket, close of it; a close never comes without the socket call
    just before it, so the tunnel descriptor stays open for the engine.
    Whenever the engine is reached both sockets have been closed. *)
Theorem sockets_closed_tunnel_kept (os : OS) (c : CmdLine) :
  let full := [EvSocket (os_socket_flags os); EvClose (os_socket_flags os);
               EvSocket (os_socket_addr os); EvClose (os_socket_addr os)] in
  (exists k, List.filter is_socket_or_close (trace (nerfnet_main os c)) = take k full) /\
  (no_engine (trace (nerfnet_main os c)) \/
   List.filter is_socket_or_close (trace (nerfnet_main os c)) = full).
Proof.
  cbv zeta. destruct (parse c) as [a|] eqn:Hp.
  - rewrite (nerfnet_main_parsed _ _ _ Hp), main_body_exact.
    destruct (first_failure os a) as [[k fmt]|] eqn:Hf; cbn [trace fst].
    + split.
      * pose proof (first_failure_bound _ _ _ _ Hf) as Hk.
        unfold tunnel_setup_trace.
        do 13 (destruct k as [|k]; [cbn; prefix_of_four|]). lia.
      * left. apply no_engine_app;
          [apply no_engine_take, no_engine_setup_trace | repeat constructor].
    + destruct (engine_stage_no_syscall os a (tunnel_fd_of os)) as [_ He].
      rewrite List.filter_app, He, app_nil_r.
      split; [by exists 4%nat | by right].
  - rewrite (nerfnet_main_rejected _ _ Hp). cbn.
    split; [by exists 0%nat | left; repeat constructor].
Qed.

Lemma substring_0_length (n : nat) (s : string) :
  (String.length (String.substring 0 n s) <= n)%nat.
Proof.
  revert s. induction n as [|n IH]; intros [|ch s]; cbn; try lia.
  specialize (IH s). lia.
Qed.

Lemma substring_0_short (n : nat) (s : string) :
  (String.length s <= n)%nat -> String.substring 0 n s = s.
Proof.
  revert s. induction n as [|n IH]; intros [|ch s]; cbn; intros H;
    try reflexivity; try lia.
  f_equal. apply IH. lia.
Qed.

Lemma setup_trace_log (os : OS) (a : Args) (fmt : string) (args : list LogArg) :
  EvLogI fmt args ∈ tunnel_setup_trace os a ->
  fmt = "using channel '%i'"%string \/
  head args = Some (ArgS (interface_name_arg a)).
Proof.
  unfold tunnel_setup_trace. intros H.
  repeat (apply elem_of_cons in H as [H | H];
          [try discriminate H; injection H as -> ->; cbn; auto|]).
  by apply elem_of_nil in H.
Qed.

(** X8. Only the first [IFNAMSIZ] (16) characters of the interface name
    reach the kernel: every request of a run names that prefix, which is
    the whole name when the name has at most 16 characters, while the log
    lines about the tunnel print the name in full. *)
Theorem interface_name_truncated (os : OS) (c : CmdLine) (a : Args) :
  parse c = Some a ->
  (forall fd req r,
     EvIoctl fd req r ∈ trace (nerfnet_main os c) ->
     ifr_name_of req = String.substring 0 IFNAMSIZ (interface_name_arg a) /\
     (String.length (ifr_name_of req) <= IFNAMSIZ)%nat /\
     ((String.length (interface_name_arg a) <= IFNAMSIZ)%nat ->
      ifr_name_of req = interface_name_arg a)) /\
  (forall fmt args,
     EvLogI fmt args ∈ trace (nerfnet_main os c) ->
     fmt = "using channel '%i'"%string \/
     head args = Some (ArgS (interface_name_arg a))).
Proof.
  intros Hp. rewrite (nerfnet_main_parsed _ _ _ Hp). split.
  - intros fd req r H. apply main_body_ioctl, setup_trace_ioctl in H.
    cbn zeta in H. fold (strncpy_ifr_name (interface_name_arg a)).
    assert (Hn : ifr_name_of req = strncpy_ifr_name (interface_name_arg a))
      by (destruct H as [-> | [-> | [-> | ->]]]; reflexivity).
    rewrite Hn. unfold strncpy_ifr_name. split; [done|]. split.
    + apply substring_0_length.
    + apply substring_0_short.
  - intros fmt args H.
    apply main_body_events in H as [H | [[f H] | [_ H]]].
    + by apply setup_trace_log in H.
    + discriminate H.
    + apply engine_stage_events in H
        as [[H _] | [[H _] | [H | [H | [f H]]]]]; discriminate H.
Qed.

Lemma interface_name_truncated_witness :
  ifr_name_of (TUNSETIFF "nerfnet-tunnel-d" 0x1001)
    = String.substring 0 IFNAMSIZ "nerfnet-tunnel-device0" /\
  (String.length (ifr_name_of (TUNSETIFF "nerfnet-tunnel-d" 0x1001)) <= IFNAMSIZ)%nat /\
  ((String.length "nerfnet-tunnel-device0" <= IFNAMSIZ)%nat ->
   ifr_name_of (TUNSETIFF "nerfnet-tunnel-d" 0x1001) = "nerfnet-tunnel-device0"%string).
Proof.
  refine (proj1 (interface_name_truncated (os_all_ok true true)
            (cmd_interface "nerfnet-tunnel-device0")
            {| interface_name_arg := "nerfnet-tunnel-device0"; ce_pin_arg := 22;
               primary_arg := true; secondary_arg := false;
               tunnel_ip_arg := EmptyString; tunnel_ip_arg_isSet := false;
               tunnel_ip_mask := "255.255.255.0";
               primary_addr_arg := 0x90019001; secondary_addr_arg := 0x90009000;
               channel_arg := 1; poll_interval_us_arg := 100;
               enable_tunnel_logs_arg := false |} _)
            3 (TUNSETIFF "nerfnet-tunnel-d" 0x1001) 0 _).
  - reflexivity.
  - vm_compute. apply list_elem_of_further, list_elem_of_here.
Defined.

Lemma no_engine_filter (t : list Event) :
  no_engine t -> List.filter engine_event t = [].
Proof.
  unfold no_engine. induction 1 as [|e t He _ IH]; [done|].
  cbn. by rewrite He.
Qed.

(** The system calls of the setup are fixed by the interface name, the
    tunnel address and the mask. *)
Lemma setup_syscalls_same (os : OS) (a1 a2 : Args) (k : nat) :
  interface_name_arg a1 = interface_name_arg a2 ->
  select_tunnel_ip a1 = select_tunnel_ip a2 ->
  tunnel_ip_mask a1 = tunnel_ip_mask a2 ->
  first_failure os a1 = first_failure os a2 /\
  List.filter is_syscall (take k (tunnel_setup_trace os a1))
  = List.filter is_syscall (take k (tunnel_setup_trace os a2)).
Proof.
  intros Hn Hi Hm. split.
  - unfold first_failure. by rewrite Hn, Hi, Hm.
  - unfold tunnel_setup_trace. rewrite Hn, Hi, Hm.
    do 15 (destruct k as [|k]; [reflexivity|]).
    cbn [take]. by rewrite !take_nil.
Qed.

(** X9. The radio options play no part in the tunnel setup. Two command
    lines that agree on the interface name, the role and the tunnel address
    and mask make the same system calls with the same arguments, however
    they differ in pin, radio addresses, channel, poll interval or logging. *)
Theorem tunnel_setup_ignores_radio_options
    (os : OS) (c1 c2 : CmdLine) (a1 a2 : Args) :
  parse c1 = Some a1 -> parse c2 = Some a2 ->
  cl_interface_name c1 = cl_interface_name c2 ->
  cl_primary c1 = cl_primary c2 ->
  cl_secondary c1 = cl_secondary c2 ->
  cl_tunnel_ip c1 = cl_tunnel_ip c2 ->
  cl_tunnel_mask c1 = cl_tunnel_mask c2 ->
  List.filter is_syscall (trace (nerfnet_main os c1))
  = List.filter is_syscall (trace (nerfnet_main os c2)).
Proof.
  intros Hp1 Hp2 Hn Hpr Hse Hip Hma.
  rewrite (nerfnet_main_parsed _ _ _ Hp1), (nerfnet_main_parsed _ _ _ Hp2).
  destruct (parse_Some _ _ Hp1) as (_ & Hn1 & _ & Hpr1 & Hse1 & Hip1 & Hset1 & Hm1 & _).
  destruct (parse_Some _ _ Hp2) as (_ & Hn2 & _ & Hpr2 & Hse2 & Hip2 & Hset2 & Hm2 & _).
  assert (En : interface_name_arg a1 = interface_name_arg a2) by congruence.
  assert (Em : tunnel_ip_mask a1 = tunnel_ip_mask a2) by congruence.
  assert (Ei : select_tunnel_ip a1 = select_tunnel_ip a2).
  { unfold select_tunnel_ip.
    by rewrite Hset1, Hset2, Hpr1, Hpr2, Hse1, Hse2, Hip1, Hip2, Hip, Hpr, Hse. }
  rewrite !main_body_exact.
  destruct (setup_syscalls_same os a1 a2 15 En Ei Em) as [Hf Hall].
  rewrite Hf. destruct (first_failure os a2) as [[k fmt]|]; cbn [trace fst].
  - rewrite !List.filter_app. f_equal.
    apply (setup_syscalls_same os a1 a2 k En Ei Em).
  - rewrite !List.filter_app.
    rewrite (proj1 (engine_stage_no_syscall os a1 _)),
            (proj1 (engine_stage_no_syscall os a2 _)).
    f_equal. exact Hall.
Qed.

Lemma tunnel_setup_ignores_radio_options_witness :
  List.filter is_syscall (trace (nerfnet_main (os_all_ok true false) (cmd_roles true false)))
  = List.filter is_syscall (trace (nerfnet_main (os_all_ok true false) (cmd_channel true 129))).
Proof.
  apply (tunnel_setup_ignores_radio_options (os_all_ok true false)
           (cmd_roles true false) (cmd_channel true 129)
           (args_roles true false)
           {| interface_name_arg := "nerf0"; ce_pin_arg := 22;
              primary_arg := true; secondary_arg := false;
              tunnel_ip_arg := EmptyString; tunnel_ip_arg_isSet := false;
              tunnel_ip_mask := "255.255.255.0";
              primary_addr_arg := 0x90019001; secondary_addr_arg := 0x90009000;
              channel_arg := 129; poll_interval_us_arg := 100;
              enable_tunnel_logs_arg := false |});
    reflexivity.
Defined.

(** X10. A run touches at most one engine: its engine events are none at
    all, or the constructor call of the selected role alone (when the
    constructor ends the process), or that call followed by one [Run].
    [Run] is never entered without the constructor before it, and never
    twice. *)
Theorem at_most_one_engine (os : OS) (c : CmdLine) :
  List.filter engine_event (trace (nerfnet_main os c)) = [] \/
  exists a,
    parse c = Some a /\ tunnel_setup_ok os a = true /\
    List.filter engine_event (trace (nerfnet_main os c))
    = if ctor_returns os a then [ctor_event os a; EvRun] else [ctor_event os a].
Proof.
  destruct (parse c) as [a|] eqn:Hp.
  - rewrite (nerfnet_main_parsed _ _ _ Hp).
    destruct (tunnel_setup_ok os a) eqn:Hok.
    + right. exists a. split; [done|]. split; [done|].
      rewrite (main_body_setup_ok _ _ Hok). cbn [trace fst].
      rewrite List.filter_app, (no_engine_filter _ (no_engine_setup_trace os a)).
      pose proof (parse_role _ _ Hp) as X. revert X.
      unfold engine_stage, ctor_returns, ctor_event.
      destruct (primary_arg a), (secondary_arg a); try discriminate; intros _;
        [ destruct (os_primary_ctor os (ce_pin_arg a) (tunnel_fd_of os)
                      (primary_addr_arg a) (secondary_addr_arg a)
                      (channel_arg a) (poll_interval_us_arg a))
        | destruct (os_secondary_ctor os (ce_pin_arg a) (tunnel_fd_of os)
                      (primary_addr_arg a) (secondary_addr_arg a)
                      (channel_arg a)) ];
        reflexivity.
    + left. destruct (main_body_setup_fail _ _ Hok) as (_ & k & fmt & ->).
      apply no_engine_filter, no_engine_app;
        [apply no_engine_take, no_engine_setup_trace | repeat constructor].
  - left. by rewrite (nerfnet_main_rejected _ _ Hp).
Qed.

Ltac invert_membership H :=
  repeat (apply elem_of_cons in H as [H | H]; [try discriminate H|]);
  try (by apply elem_of_nil in H).

(** X11. The informational log lines can be trusted. "tunnel opened" is
    logged only after the open and TUNSETIFF succeeded, "tunnel up" only
    after the IFF_UP request succeeded on a valid socket, and "tunnel
    configured" only after every step of the setup succeeded. *)
Theorem info_logs_are_truthful (os : OS) (c : CmdLine) (a : Args) :
  parse c = Some a ->
  let name := strncpy_ifr_name (interface_name_arg a) in
  (forall args,
     EvLogI "tunnel '%s' opened" args ∈ trace (nerfnet_main os c) ->
     0 <= tunnel_fd_of os /\
     0 <= os_ioctl os (tunnel_fd_of os) (TUNSETIFF name (Z.lor IFF_TUN IFF_NO_PI))) /\
  (forall args,
     EvLogI "tunnel '%s' up" args ∈ trace (nerfnet_main os c) ->
     0 <= os_socket_flags os /\
     0 <= os_ioctl os (os_socket_flags os) (SIOCSIFFLAGS name IFF_UP)) /\
  (forall args,
     EvLogI "tunnel '%s' configured with '%s' mask '%s'" args
       ∈ trace (nerfnet_main os c) ->
     tunnel_setup_ok os a = true).
Proof.
  intros Hp. cbv zeta. rewrite (nerfnet_main_parsed _ _ _ Hp), main_body_exact.
  destruct (first_failure os a) as [[k fmt]|] eqn:Hf.
  - revert Hf. unfold first_failure, tunnel_setup_trace.
    repeat match goal with
    | |- context [if negb ?b then Some _ else _] =>
        let E := fresh "E" in
        destruct b eqn:E; cbn [negb];
        [ try apply Z.leb_le in E
        | intros [= <- <-]; cbn [trace fst take app];
          (split; [|split]); intros args H; invert_membership H; auto ]
    end.
    discriminate.
  - apply first_failure_None in Hf. pose proof Hf as Hok.
    unfold tunnel_setup_ok in Hf.
    repeat (apply andb_prop in Hf; destruct Hf as [Hf ?]).
    repeat match goal with
    | H : (_ <=? _) = true |- _ => apply Z.leb_le in H
    end.
    (split; [|split]); intros args _; auto.
Qed.

Lemma info_logs_are_truthful_witness :
  0 <= tunnel_fd_of (os_all_ok true false) /\
  0 <= os_ioctl (os_all_ok true false) (tunnel_fd_of (os_all_ok true false))
         (TUNSETIFF (strncpy_ifr_name "nerf0") (Z.lor IFF_TUN IFF_NO_PI)).
Proof.
  refine (proj1 (info_logs_are_truthful (os_all_ok true false)
            (cmd_roles true false) (args_roles true false) _)
            [ArgS "nerf0"] _).
  - reflexivity.
  - vm_compute. do 2 apply list_elem_of_further. apply list_elem_of_here.
Defined.

Lemma setup_trace_filter_fatal (os : OS) (a : Args) :
  List.filter is_fatal (tunnel_setup_trace os a) = [].
Proof. reflexivity. Qed.

(** X12. A fatal line is logged exactly when the process quits on a CHECK,
    and it is then the last event of the run and the only fatal line; a run
    that ends in any other way logs none. *)
Theorem fatal_line_iff_check_quit (os : OS) (c : CmdLine) :
  match result (nerfnet_main os c) with
  | Stop CheckQuit =>
      exists t fmt,
        trace (nerfnet_main os c) = t ++ [EvLogFatal fmt] /\
        List.filter is_fatal t = []
  | _ => List.filter is_fatal (trace (nerfnet_main os c)) = []
  end.
Proof.
  destruct (parse c) as [a|] eqn:Hp.
  - rewrite (nerfnet_main_parsed _ _ _ Hp), main_body_exact.
    destruct (first_failure os a) as [[k fmt]|] eqn:Hf; cbn [trace fst result snd].
    + exists (take k (tunnel_setup_trace os a)), fmt. split; [done|].
      apply filter_nil_take, setup_trace_filter_fatal.
    + pose proof (parse_role _ _ Hp) as X. revert X. unfold engine_stage.
      destruct (primary_arg a), (secondary_arg a); try discriminate; intros _;
        [ destruct (os_primary_ctor os (ce_pin_arg a) (tunnel_fd_of os)
                      (primary_addr_arg a) (secondary_addr_arg a)
                      (channel_arg a) (poll_interval_us_arg a))
        | destruct (os_secondary_ctor os (ce_pin_arg a) (tunnel_fd_of os)
                      (primary_addr_arg a) (secondary_addr_arg a)
                      (channel_arg a)) ];
        try destruct (os_run_returns os); cbn [trace fst result snd];
        apply filter_nil_app; solve [apply setup_trace_filter_fatal | reflexivity].
  - by rewrite (nerfnet_main_rejected _ _ Hp).
Qed.

(** X13. The role matters to the tunnel only through the default address:
    when the tunnel IP is given, a primary and a secondary command line
    with the same interface name, address and mask make the same system
    calls. *)
Theorem tunnel_setup_same_for_both_roles
    (os : OS) (c1 c2 : CmdLine) (a1 a2 : Args) (ip : string) :
  parse c1 = Some a1 -> parse c2 = Some a2 ->
  cl_interface_name c1 = cl_interface_name c2 ->
  cl_tunnel_ip c1 = Some ip -> cl_tunnel_ip c2 = Some ip ->
  cl_tunnel_mask c1 = cl_tunnel_mask c2 ->
  List.filter is_syscall (trace (nerfnet_main os c1))
  = List.filter is_syscall (trace (nerfnet_main os c2)).
Proof.
  intros Hp1 Hp2 Hn Hip1' Hip2' Hma.
  rewrite (nerfnet_main_parsed _ _ _ Hp1), (nerfnet_main_parsed _ _ _ Hp2).
  destruct (parse_Some _ _ Hp1) as (_ & Hn1 & _ & _ & _ & Hip1 & Hset1 & Hm1 & _).
  destruct (parse_Some _ _ Hp2) as (_ & Hn2 & _ & _ & _ & Hip2 & Hset2 & Hm2 & _).
  assert (En : interface_name_arg a1 = interface_name_arg a2) by congruence.
  assert (Em : tunnel_ip_mask a1 = tunnel_ip_mask a2) by congruence.
  assert (Ei : select_tunnel_ip a1 = select_tunnel_ip a2).
  { unfold select_tunnel_ip.
    by rewrite Hset1, Hset2, Hip1, Hip2, Hip1', Hip2'. }
  rewrite !main_body_exact.
  destruct (setup_syscalls_same os a1 a2 15 En Ei Em) as [Hf Hall].
  rewrite Hf. destruct (first_failure os a2) as [[k fmt]|]; cbn [trace fst].
  - rewrite !List.filter_app. f_equal.
    apply (setup_syscalls_same os a1 a2 k En Ei Em).
  - rewrite !List.filter_app.
    rewrite (proj1 (engine_stage_no_syscall os a1 _)),
            (proj1 (engine_stage_no_syscall os a2 _)).
    f_equal. exact Hall.
Qed.

Lemma tunnel_setup_same_for_both_roles_witness :
  List.filter is_syscall
    (trace (nerfnet_main (os_all_ok true false) (cmd_role_tunnel_ip true "10.0.0.9")))
  = List.filter is_syscall
      (trace (nerfnet_main (os_all_ok true false) (cmd_role_tunnel_ip false "10.0.0.9"))).
Proof.
  apply (tunnel_setup_same_for_both_roles (os_all_ok true false)
           (cmd_role_tunnel_ip true "10.0.0.9")
           (cmd_role_tunnel_ip false "10.0.0.9")
           {| interface_name_arg := "nerf0"; ce_pin_arg := 22;
              primary_arg := true; secondary_arg := false;
              tunnel_ip_arg := "10.0.0.9"; tunnel_ip_arg_isSet := true;
              tunnel_ip_mask := "255.255.255.0";
              primary_addr_arg := 0x90019001; secondary_addr_arg := 0x90009000;
              channel_arg := 1; poll_interval_us_arg := 100;
              enable_tunnel_logs_arg := false |}
           {| interface_name_arg := "nerf0"; ce_pin_arg := 22;
              primary_arg := false; secondary_arg := true;
              tunnel_ip_arg := "10.0.0.9"; tunnel_ip_arg_isSet := true;
              tunnel_ip_mask := "255.255.255.0";
              primary_addr_arg := 0x90019001; secondary_addr_arg := 0x90009000;
              channel_arg := 1; poll_interval_us_arg := 100;
              enable_tunnel_logs_arg := false |}
           "10.0.0.9");
    reflexivity.
Defined.

Ltac solve_membership H :=
  repeat (apply elem_of_cons in H as [H | H]; [subst; cbn; auto|]);
  try (by apply elem_of_nil in H).

(** X14. No request and no close is ever issued on an invalid descriptor:
    TUNSETIFF goes to the descriptor of /dev/net/tun, the flags request to
    the first socket, address and mask to the second, and each of these
    descriptors was checked to be non-negative before the call. *)
Theorem no_call_on_invalid_descriptor (os : OS) (c : CmdLine) (e : Event) :
  e ∈ trace (nerfnet_main os c) -> acts_on_valid_descriptor os e.
Proof.
  destruct (parse c) as [a|] eqn:Hp.
  - rewrite (nerfnet_main_parsed _ _ _ Hp), main_body_exact.
    destruct (first_failure os a) as [[k fmt]|] eqn:Hf.
    + revert Hf. unfold first_failure, tunnel_setup_trace.
      repeat match goal with
      | |- context [if negb ?b then Some _ else _] =>
          let E := fresh "E" in
          destruct b eqn:E; cbn [negb];
          [ try apply Z.leb_le in E
          | intros [= <- <-]; cbn [trace fst take app];
            intros H; solve_membership H ]
      end.
      discriminate.
    + apply first_failure_None in Hf. unfold tunnel_setup_ok in Hf.
      repeat (apply andb_prop in Hf; destruct Hf as [Hf ?]).
      repeat match goal with
      | H : (_ <=? _) = true |- _ => apply Z.leb_le in H
      end.
      cbn [trace fst]. intros [Hin | Hin]%elem_of_app.
      * unfold tunnel_setup_trace in Hin. solve_membership Hin.
      * apply engine_stage_events in Hin
          as [[-> _] | [[-> _] | [-> | [-> | [f ->]]]]]; exact I.
  - rewrite (nerfnet_main_rejected _ _ Hp).
    intros ->%list_elem_of_singleton. exact I.
Qed.

Lemma no_call_on_invalid_descriptor_witness :
  acts_on_valid_descriptor (os_all_ok true false)
    (EvIoctl 4 (SIOCSIFADDR "nerf0" "192.168.10.1") 0).
Proof.
  apply (no_call_on_invalid_descriptor (os_all_ok true false) (cmd_roles true false)).
  vm_compute. do 9 apply list_elem_of_further. apply list_elem_of_here.
Defined.
